(** * common-components: the Prefect deployment generator and the Potrace tracer

    A shallow embedding of the two notebooks of the repository,
    [prefect/prefect_create_deployment.ipynb] and
    [computer_vision/potrace_imports.ipynb], and the properties their
    specification states about them.

    Python [str] values are [string]s (sequences of bytes), the scanned
    directory tree is an inductive tree whose entries keep the order in which
    the operating system enumerates them, and the output folder is a finite
    map from file names to file contents. *)

From Stdlib Require Import ZArith Ascii String List Bool Lia.
From Stdlib Require Import DecimalString.
From stdpp Require Import gmap strings list.

Local Open Scope stdpp_scope.

(** ** Python's [str] methods used by the notebooks *)

Module PyStr.

(** [s.startswith(p)] *)
Fixpoint startswith (s p : string) : bool :=
  match p, s with
  | EmptyString, _ => true
  | String _ _, EmptyString => false
  | String a p', String b s' => Ascii.eqb a b && startswith s' p'
  end.

(** [s.endswith(suf)]: [s] is [suf] itself, or its tail ends with [suf]. *)
Fixpoint endswith (s suf : string) : bool :=
  String.eqb s suf ||
  match s with
  | EmptyString => false
  | String _ s' => endswith s' suf
  end.

(** [sub in s] *)
Fixpoint contains (s sub : string) : bool :=
  startswith s sub ||
  match s with
  | EmptyString => false
  | String _ s' => contains s' sub
  end.

(** [s.split(c)] for a separator [c] of one character. The result is
    never the empty list. *)
Fixpoint split (c : ascii) (s : string) : list string :=
  match s with
  | EmptyString => [EmptyString]
  | String a s' =>
      if Ascii.eqb a c then EmptyString :: split c s'
      else match split c s' with
           | [] => [String a EmptyString]
           | w :: ws => String a w :: ws
           end
  end.

(** [l[0]] on the result of [split], which always has a first element. *)
Definition item0 (l : list string) : string := hd EmptyString l.

(** The scan of [s.replace(old, new)] for a non-empty [old]: [skip] counts
    the characters of a match that are still to be dropped. *)
Fixpoint replace_go (old new : string) (skip : nat) (s : string) : string :=
  match s with
  | EmptyString => EmptyString
  | String c s' =>
      match skip with
      | S k => replace_go old new k s'
      | O =>
          if startswith s old
          then new +:+ replace_go old new (String.length old - 1) s'
          else String c (replace_go old new 0 s')
      end
  end.

(** With an empty [old], Python puts [new] before every character and at
    the end. *)
Fixpoint intersperse (new s : string) : string :=
  match s with
  | EmptyString => new
  | String c s' => new +:+ String c (intersperse new s')
  end.

(** [s.replace(old, new)]: every non-overlapping occurrence, leftmost
    first. *)
Definition replace (s old new : string) : string :=
  match old with
  | EmptyString => intersperse new s
  | String _ _ => replace_go old new 0 s
  end.

(** The characters [str.isspace] accepts among the first 128. *)
Definition isspace (c : ascii) : bool :=
  let n := nat_of_ascii c in
  ((9 <=? n) && (n <=? 13)) || ((28 <=? n) && (n <=? 32)).

(** [s.lstrip()] *)
Fixpoint lstrip (s : string) : string :=
  match s with
  | EmptyString => EmptyString
  | String c s' => if isspace c then lstrip s' else s
  end.

(** [s.rfind(c)] for one character, as an option instead of [-1]. *)
Fixpoint rfind (c : ascii) (s : string) : option nat :=
  match s with
  | EmptyString => None
  | String a s' =>
      match rfind c s' with
      | Some i => Some (S i)
      | None => if Ascii.eqb a c then Some 0 else None
      end
  end.

(** [s[i:]] and [s[:i]] *)
Fixpoint drop (i : nat) (s : string) : string :=
  match i, s with
  | O, _ => s
  | S _, EmptyString => EmptyString
  | S k, String _ s' => drop k s'
  end.

Fixpoint take (i : nat) (s : string) : string :=
  match i, s with
  | O, _ => EmptyString
  | S _, EmptyString => EmptyString
  | S k, String c s' => String c (take k s')
  end.

End PyStr.

(** ** Python's rendering of numbers inside an f-string *)

Module PyNum.

(** [str(n)] for an [int]. *)
Definition int_str (n : Z) : string := NilZero.string_of_int (Z.to_int n).

(** A Python [float], given the way [repr] first sees it: the sign, the
    shortest string of decimal digits that reads back as the same double,
    and the position of the decimal point relative to the start of those
    digits. [3600.0] is [Finite false "36" 4], [0.5] is
    [Finite false "5" 0], [0.0] is [Finite false "0" 1]. *)
Inductive pyfloat : Type :=
| Finite (neg : bool) (digits : string) (decpt : Z)
| Infinity (neg : bool)
| NaN.

Fixpoint zeros (n : nat) : string :=
  match n with
  | O => EmptyString
  | S k => String "0"%char (zeros k)
  end.

(** The exponent of the scientific form: a sign and at least two digits. *)
Definition exponent_str (e : Z) : string :=
  let a := int_str (Z.abs e) in
  (if (e <? 0)%Z then "-" else "+") +:+
  (if (String.length a <? 2)%nat then "0" +:+ a else a).

(** [repr(x)], which is also what [f"{x}"] and [str(x)] give: fixed
    notation while the decimal point lies within 16 digits, scientific
    notation otherwise, and a [.0] added to an integral value. *)
Definition float_repr (x : pyfloat) : string :=
  match x with
  | NaN => "nan"
  | Infinity neg => if neg then "-inf" else "inf"
  | Finite neg ds decpt =>
      let n := Z.of_nat (String.length ds) in
      let body :=
        if ((decpt <=? -4) || (16 <? decpt))%Z then
          match ds with
          | EmptyString => EmptyString
          | String c EmptyString => String c EmptyString
          | String c r => String c ("." +:+ r)
          end +:+ "e" +:+ exponent_str (decpt - 1)
        else if (decpt <=? 0)%Z then
          "0." +:+ zeros (Z.to_nat (- decpt)) +:+ ds
        else if (n <=? decpt)%Z then
          ds +:+ zeros (Z.to_nat (decpt - n)) +:+ ".0"
        else
          PyStr.take (Z.to_nat decpt) ds +:+ "." +:+
          PyStr.drop (Z.to_nat decpt) ds in
      (if neg then "-" else EmptyString) +:+ body
  end.

End PyNum.

(** ** [os.path] and the scanned directory tree *)

Module Os.

(** The two flavours of [os.path], named as [os.name] names them, with
    their [os.sep] and [os.altsep]. *)
Inductive platform : Type := Posix | Nt.

Definition os_sep (pf : platform) : ascii :=
  match pf with
  | Posix => "/"%char
  | Nt => "\"%char
  end.

Definition os_altsep (pf : platform) : option ascii :=
  match pf with
  | Posix => None
  | Nt => Some "/"%char
  end.

Definition is_sep (pf : platform) (c : ascii) : bool :=
  Ascii.eqb c (os_sep pf) ||
  match os_altsep pf with
  | Some a => Ascii.eqb c a
  | None => false
  end.

Fixpoint has_sep (pf : platform) (s : string) : bool :=
  match s with
  | EmptyString => false
  | String c s' => is_sep pf c || has_sep pf s'
  end.

Fixpoint last_char (s : string) : option ascii :=
  match s with
  | EmptyString => None
  | String c EmptyString => Some c
  | String _ s' => last_char s'
  end.

(** [os.path.join(path, name)] where [name] is the name of a directory
    entry, the only use [os.walk] makes of it: the separator is added
    unless [path] is empty or already ends with one. (A [path] that is a
    bare Windows drive such as [d:] is outside this model.) *)
Definition join (pf : platform) (path name : string) : string :=
  match last_char path with
  | None => name
  | Some c =>
      if is_sep pf c then path +:+ name
      else path +:+ String (os_sep pf) name
  end.

(** [os.path.basename(p)]: what follows the last separator. [ntpath] first
    splits off a drive or UNC prefix, which this function does not do: the
    two differ on a path that has no separator after such a prefix, as
    [d:proj] or [//server/share]. The loop passes roots of [os.walk], whose
    last component follows a separator unless the scanned root is itself
    such a prefix. *)
Fixpoint basename (pf : platform) (p : string) : string :=
  match p with
  | EmptyString => EmptyString
  | String c p' =>
      if has_sep pf p' then basename pf p'
      else if is_sep pf c then p' else p
  end.

(** A file-system object: a directory keeps its entries in the order in
    which the system enumerates them. Everything that is not a directory
    is a [File]. *)
#[local] Unset Elimination Schemes.
Inductive node : Type :=
| File
| Dir (entries : list (string * node)).
#[local] Set Elimination Schemes.

Definition is_dir (n : node) : bool :=
  match n with
  | File => false
  | Dir _ => true
  end.

(** The [dirs] and [files] lists [os.walk] yields for a directory. *)
Definition dirs (es : list (string * node)) : list string :=
  map fst (List.filter (fun e => is_dir (snd e)) es).

Definition nondirs (es : list (string * node)) : list string :=
  map fst (List.filter (fun e => negb (is_dir (snd e))) es).

(** The directory named [d] inside a directory with entries [es]. *)
Definition subdir (es : list (string * node)) (d : string)
  : option (list (string * node)) :=
  match find (fun e => String.eqb (fst e) d && is_dir (snd e)) es with
  | Some (_, Dir es') => Some es'
  | _ => None
  end.

(** [os.listdir] of the directory named [d] inside [es]: the names of all
    its entries, files and directories alike. *)
Definition listdir (es : list (string * node)) (d : string) : list string :=
  match subdir es d with
  | Some es' => map fst es'
  | None => []
  end.

(** [os.walk(top)], top-down: each directory is yielded with its path and
    its entries before its sub-directories are walked, in enumeration
    order; the [dirs] and [files] of the yielded triple are [dirs es] and
    [nondirs es]. A [top] that is not a directory yields nothing. *)
Fixpoint walk (pf : platform) (top : string) (n : node)
  : list (string * list (string * node)) :=
  match n with
  | File => []
  | Dir es =>
      (top, es) ::
      flat_map (fun e => walk pf (join pf top (fst e)) (snd e)) es
  end.

End Os.

(** ** The deployment generator, [prefect/prefect_create_deployment.ipynb] *)

Module Prefect.
Import PyStr PyNum Os.

(** The module-level constants of the notebook. *)
Record config : Type := {
  prefect_version : string;
  src_root : string;
  local_root : string;
  output_folder : string
}.

Definition notebook_config : config := {|
  prefect_version := "3.0.1";
  src_root := "/prefect/src";
  local_root := "d:/Git/thinkstack_data_etl/src";
  output_folder := "d:/exports/prefect_jobs"
|}.

(** [src_folder], which the notebook defines and never reads. *)
Definition src_folder (cfg : config) : string := local_root cfg +:+ "/src/staging".

(** What the notebook can change outside itself: the lines it prints, the
    directories it has asked [mkdir] for and the files it has written, each
    under the path string handed to [mkdir] or [open]. *)
Record world : Type := {
  stdout : list string;
  made_dirs : gset string;
  files : gmap string string
}.

Definition print (line : string) (w : world) : world :=
  {| stdout := stdout w ++ [line];
     made_dirs := made_dirs w;
     files := files w |}.

(** [Path(p).mkdir(parents=True, exist_ok=True)]: [p] is recorded as asked
    for. With [parents=True] the call also makes the parents of [p] that
    are missing; those are not recorded, so [made_dirs] tells which
    directories the notebook asked for and not every directory that came
    to exist. *)
Definition mkdir (p : string) (w : world) : world :=
  {| stdout := stdout w;
     made_dirs := {[ p ]} ∪ made_dirs w;
     files := files w |}.

(** [with open(p, "w") as f: f.write(body)] *)
Definition write_file (p body : string) (w : world) : world :=
  {| stdout := stdout w;
     made_dirs := made_dirs w;
     files := <[ p := body ]> (files w) |}.

(** The keyword arguments of [create_deployment_yaml]. *)
Record args : Type := {
  project_name : string;
  project_dir : string;
  deployment_name : string;
  entrypoint : string;
  worker_pool : string;
  schedule_interval : pyfloat;
  schedule_timezone : string;
  schedule_active : string
}.

Definition default_args : args := {|
  project_name := "undefined";
  project_dir := "staging/api/undefined";
  deployment_name := "undefined";
  entrypoint := "module.py:function";
  worker_pool := "default-worker-pool";
  schedule_interval := Finite false "36" 4;
  schedule_timezone := "UTC";
  schedule_active := "true"
|}.

Definition nl : string := String (ascii_of_nat 10) EmptyString.

(** Each element followed by a line feed. *)
Fixpoint lines (l : list string) : string :=
  match l with
  | [] => EmptyString
  | x :: l' => x +:+ nl +:+ lines l'
  end.

(** The first part of the template, up to the [deployments] list. *)
Definition yaml_head (cfg : config) (a : args) : list string :=
  [ "# Welcome to your prefect.yaml file! You can use this file for storing and managing";
    "# configuration for deploying your flows. We recommend committing this file to source";
    "# control along with your flow code.";
    EmptyString;
    "# Generic metadata about this project";
    "name: " +:+ project_name a;
    "prefect-version: " +:+ prefect_version cfg;
    EmptyString;
    "# build section allows you to manage and build docker images";
    "build: null";
    EmptyString;
    "# push section allows you to manage if and how this project is uploaded to remote locations";
    "push: null";
    EmptyString;
    "# pull section allows you to provide instructions for cloning this project in remote locations";
    "pull:";
    "- prefect.deployments.steps.set_working_directory:";
    "    directory: " +:+ src_root cfg;
    EmptyString ].

(** The [deployments] list with its one entry. *)
Definition yaml_deployments (a : args) : list string :=
  [ "# the deployments section allows you to provide configuration for deploying flows";
    "deployments:";
    "- name: " +:+ deployment_name a;
    "  version: null";
    "  tags: []";
    "  concurrency_limit: null";
    "  description: null";
    "  entrypoint: " +:+ entrypoint a;
    "  parameters: { }";
    "  work_pool:";
    "    name: " +:+ worker_pool a;
    "    work_queue_name: null";
    "    job_variables: { }";
    "enforce_parameter_schema: true" ].

(** The [schedules] list with its one entry. *)
Definition yaml_schedules (a : args) : list string :=
  [ "schedules:";
    "- interval: " +:+ float_repr (schedule_interval a);
    "  anchor_date: '2024-01-01T01:00:00+00:00'";
    "  timezone: " +:+ schedule_timezone a;
    "  active: " +:+ schedule_active a;
    "  max_active_runs: null";
    "  catchup: false" ].

(** [yaml_body]: the f-string, then [.lstrip()]. *)
Definition yaml_body (cfg : config) (a : args) : string :=
  lstrip (lines (yaml_head cfg a ++ yaml_deployments a ++ yaml_schedules a)).

(** The path of the file [create_deployment_yaml] writes. *)
Definition output_path (cfg : config) (deployment : string) : string :=
  output_folder cfg +:+ "/" +:+ deployment +:+ "-deploy.yaml".

Definition create_deployment_yaml (cfg : config) (a : args) (w : world) : world :=
  write_file (output_path cfg (deployment_name a)) (yaml_body cfg a)
    (mkdir (output_folder cfg) w).

(** [x.replace("\\", "/").replace(local_root, src_root)] *)
Definition to_remote (cfg : config) (x : string) : string :=
  replace (replace x "\" "/") (local_root cfg) (src_root cfg).

(** [file.split(".")[0]] *)
Definition deployment_of (file : string) : string := item0 (split "."%char file).

(** The call the discovery loop makes for [file], found in directory [d]
    of [root]. *)
Definition call_args (pf : platform) (cfg : config) (root d file : string) : args :=
  let deployment := deployment_of file in
  {| project_name := basename pf root;
     project_dir := to_remote cfg (root +:+ "/" +:+ d);
     deployment_name := deployment;
     entrypoint :=
       to_remote cfg
         (root +:+ "/" +:+ d +:+ "/" +:+ deployment +:+ ".py:" +:+ deployment);
     worker_pool := "default-worker-pool";
     schedule_interval := Finite false "36" 4;
     schedule_timezone := "UTC";
     schedule_active := "true" |}.

(** The body of [for file in os.listdir(...)]. *)
Definition visit_file (pf : platform) (cfg : config) (root d : string)
    (w : world) (file : string) : world :=
  if endswith file ".py" then
    create_deployment_yaml cfg (call_args pf cfg root d file)
      (print ("Creating deployment for " +:+ deployment_of file) w)
  else w.

(** The body of [for d in dirs]. *)
Definition visit_dir (pf : platform) (cfg : config) (root : string)
    (es : list (string * node)) (w : world) (d : string) : world :=
  if String.eqb d "src" then
    fold_left (visit_file pf cfg root d) (listdir es d) w
  else w.

(** The body of [for root, dirs, files in os.walk(local_root)]. *)
Definition visit_root (pf : platform) (cfg : config) (w : world)
    (r : string * list (string * node)) : world :=
  fold_left (visit_dir pf cfg (fst r) (snd r)) (dirs (snd r)) w.

(** The last cell of the notebook, run on the tree [fs] found at
    [local_root]. *)
Definition generate (pf : platform) (cfg : config) (fs : node) (w : world) : world :=
  fold_left (visit_root pf cfg) (walk pf (local_root cfg) fs) w.

Definition empty_world : world :=
  {| stdout := []; made_dirs := ∅; files := ∅ |}.

End Prefect.

(** ** The tracer, [computer_vision/potrace_imports.ipynb] *)

Module Potrace.
Import PyStr PyNum Os.

(** A raised Python exception: whether it is an instance of [Exception]
    (and not only of [BaseException], as [KeyboardInterrupt] is), and the
    text [str(e)] gives. *)
Record exn : Type := { is_Exception : bool; message : string }.

(** A library call either returns or raises. *)
Inductive result (A : Type) : Type :=
| Ok (a : A)
| Raise (e : exn).
Arguments Ok {A} a.
Arguments Raise {A} e.

Definition bind {A B : Type} (r : result A) (k : A -> result B) : result B :=
  match r with
  | Ok a => k a
  | Raise e => Raise e
  end.

(** The objects of the [potracer] library the notebook reads. *)
Record point : Type := { x : pyfloat; y : pyfloat }.

Inductive segment : Type :=
| CornerSeg (c end_point : point)
| BezierSeg (c1 c2 end_point : point).

Record curve : Type := { start_point : point; segments : list segment }.

(** What a run can change outside itself: the printed lines and the
    files written. *)
Record world : Type := {
  stdout : list string;
  files : gmap string string
}.

Definition print (line : string) (w : world) : world :=
  {| stdout := stdout w ++ [line]; files := files w |}.

Definition write_file (p body : string) (w : world) : world :=
  {| stdout := stdout w; files := <[ p := body ]> (files w) |}.

(** How a call of [file_to_svg] ends. *)
Inductive outcome : Type :=
| Returned
| Raised (e : exn).

(** [os.path.splitext(p)[0]]: [p] up to its last dot, when that dot comes
    after the last separator and after a character of the file name that
    is not a dot. *)
Definition index_or_minus1 (o : option nat) : Z :=
  match o with
  | Some i => Z.of_nat i
  | None => (-1)%Z
  end.

Fixpoint all_dots (s : string) : bool :=
  match s with
  | EmptyString => true
  | String c s' => Ascii.eqb c "."%char && all_dots s'
  end.

Definition splitext_root (pf : platform) (p : string) : string :=
  let sepIndex :=
    Z.max (index_or_minus1 (rfind (os_sep pf) p))
          (match os_altsep pf with
           | Some a => index_or_minus1 (rfind a p)
           | None => (-1)%Z
           end) in
  let dotIndex := index_or_minus1 (rfind "."%char p) in
  if (sepIndex <? dotIndex)%Z then
    let filenameIndex := Z.to_nat (sepIndex + 1) in
    if all_dots (take (Z.to_nat dotIndex - filenameIndex) (drop filenameIndex p))
    then p
    else take (Z.to_nat dotIndex) p
  else p.

(** [f"{p.x},{p.y}"] *)
Definition coords (p : point) : string :=
  float_repr (x p) +:+ "," +:+ float_repr (y p).

(** The string appended to [parts] for one segment. *)
Definition segment_part (s : segment) : string :=
  match s with
  | CornerSeg a b => "L" +:+ coords a +:+ "L" +:+ coords b
  | BezierSeg a b c => "C" +:+ coords a +:+ " " +:+ coords b +:+ " " +:+ coords c
  end.

(** The strings appended to [parts] for one curve. *)
Definition curve_parts (c : curve) : list string :=
  ("M" +:+ coords (start_point c)) :: map segment_part (segments c) ++ ["z"].

(** A value between double quotes, as the SVG attributes are written. *)
Definition dq : string := String (ascii_of_nat 34) EmptyString.
Definition quoted (s : string) : string := dq +:+ s +:+ dq.

(** [sep.join(l)] with the empty separator. *)
Definition join_parts (l : list string) : string :=
  fold_right String.append EmptyString l.

Section Tracer.
(** The image object of PIL with the two attributes the notebook reads,
    and the library calls, which depend on files and code outside the
    notebook. [Bitmap_trace] stands for [Bitmap(image, blacklevel=.250)]
    followed by [bm.trace(...)] with the notebook's fixed arguments. *)
Variable image : Type.
Variable width height : image -> Z.
Variable Image_open : string -> result image.
Variable ImageOps_equalize : image -> result image.
Variable Bitmap_trace : image -> result (list curve).
Variable pf : platform.

(** The library calls inside the [try] block. *)
Definition load_image (filename : string) : result image :=
  bind (Image_open filename) ImageOps_equalize.

(** The three [fp.write] calls together. *)
Definition svg_text (img : image) (plist : list curve) : string :=
  "<svg version=" +:+ quoted "1.1" +:+
  " xmlns=" +:+ quoted "http://www.w3.org/2000/svg" +:+
  " xmlns:xlink=" +:+ quoted "http://www.w3.org/1999/xlink" +:+
  " width=" +:+ quoted (int_str (width img)) +:+
  " height=" +:+ quoted (int_str (height img)) +:+
  " viewBox=" +:+
  quoted ("0 0 " +:+ int_str (width img) +:+ " " +:+ int_str (height img)) +:+
  ">" +:+
  "<path stroke=" +:+ quoted "none" +:+ " fill=" +:+ quoted "black" +:+
  " fill-rule=" +:+ quoted "evenodd" +:+
  " d=" +:+ quoted (join_parts (flat_map curve_parts plist)) +:+ "/>" +:+
  "</svg>".

(** [file_to_svg]. The library calls are the ones that may raise here; the
    [open] and the writes at the end are taken to go through. A path that
    cannot be opened for writing makes the real call raise at that point,
    outside the [try], so [Raised] covers the failures of loading and
    tracing only. *)
Definition file_to_svg (filename : string) (w : world) : outcome * world :=
  let w1 := print ("Loading image " +:+ filename +:+ "...") w in
  match load_image filename with
  | Raise e =>
      if is_Exception e then
        (Returned,
         print ("Failed to load image " +:+ filename +:+ ": " +:+ message e) w1)
      else (Raised e, w1)
  | Ok img =>
      match Bitmap_trace img with
      | Raise e => (Raised e, w1)
      | Ok plist =>
          (Returned,
           write_file (splitext_root pf filename +:+ ".svg")
             (svg_text img plist) w1)
      end
  end.
End Tracer.

End Potrace.

(** ** The discovery loop seen as data *)

Module Discovery.
Import PyStr PyNum Os Prefect.

(** The source units found in directory [d] of a walked directory, each
    with the [root] it was found under, in the order [os.listdir] gives. *)
Definition units_in_dir (root : string) (es : list (string * node)) (d : string)
  : list (string * string) :=
  if String.eqb d "src"
  then map (pair root) (List.filter (fun f => endswith f ".py") (listdir es d))
  else [].

Definition units_of_root (r : string * list (string * node))
  : list (string * string) :=
  flat_map (units_in_dir (fst r) (snd r)) (dirs (snd r)).

(** All source units of a run, in processing order. *)
Definition units (pf : platform) (cfg : config) (fs : node)
  : list (string * string) :=
  flat_map units_of_root (walk pf (local_root cfg) fs).

(** What the loop does for one unit; the matched directory is always
    [src]. *)
Definition process_unit (pf : platform) (cfg : config) (w : world)
    (u : string * string) : world :=
  create_deployment_yaml cfg (call_args pf cfg (fst u) "src" (snd u))
    (print ("Creating deployment for " +:+ deployment_of (snd u)) w).

(** The file a unit is written to, and the text written. *)
Definition unit_write (pf : platform) (cfg : config) (u : string * string)
  : string * string :=
  (output_path cfg (deployment_of (snd u)),
   yaml_body cfg (call_args pf cfg (fst u) "src" (snd u))).

(** A directory with entries [es] lies below the scanned root along the
    entry names [p]. *)
Inductive at_path : node -> list string -> list (string * node) -> Prop :=
| at_here es : at_path (Dir es) [] es
| at_step es name child p es' :
    In (name, child) es -> at_path child p es' ->
    at_path (Dir es) (name :: p) es'.

(** The path [os.walk] gives the directory reached from [top] along [p]. *)
Definition path_of (pf : platform) (top : string) (p : list string) : string :=
  fold_left (join pf) p top.

(** Some directory below the root, at any depth, is named [src]. *)
Fixpoint has_src_dir (n : node) : bool :=
  match n with
  | File => false
  | Dir es =>
      existsb (fun e => (String.eqb (fst e) "src" && is_dir (snd e))
                        || has_src_dir (snd e)) es
  end.

(** The number of dots in a file name. *)
Fixpoint count_dots (s : string) : nat :=
  match s with
  | EmptyString => 0
  | String c s' => (if Ascii.eqb c "."%char then 1 else 0) + count_dots s'
  end.

(** [os.path.dirname(p)] without the trailing separator: [p] up to its
    last separator. *)
Fixpoint parent_path (pf : platform) (p : string) : string :=
  match p with
  | EmptyString => EmptyString
  | String c p' =>
      if has_sep pf p' then String c (parent_path pf p')
      else EmptyString
  end.

(** The name of the directory [k] levels above the directory at [p]. *)
Fixpoint name_above (pf : platform) (k : nat) (p : string) : string :=
  match k with
  | O => basename pf p
  | S k' => name_above pf k' (parent_path pf p)
  end.

(** Two calls of [create_deployment_yaml] that differ at most in
    [project_dir]. *)
Definition same_but_project_dir (a b : args) : Prop :=
  project_name a = project_name b /\
  deployment_name a = deployment_name b /\
  entrypoint a = entrypoint b /\
  worker_pool a = worker_pool b /\
  schedule_interval a = schedule_interval b /\
  schedule_timezone a = schedule_timezone b /\
  schedule_active a = schedule_active b.

(** The rendered [schedules] stanza for given values. *)
Definition schedule_stanza (interval timezone active : string) : string :=
  "schedules:" +:+ nl +:+
  "- interval: " +:+ interval +:+ nl +:+
  "  anchor_date: '2024-01-01T01:00:00+00:00'" +:+ nl +:+
  "  timezone: " +:+ timezone +:+ nl +:+
  "  active: " +:+ active +:+ nl +:+
  "  max_active_runs: null" +:+ nl +:+
  "  catchup: false" +:+ nl.

(** What [root] has after the local root, [root[len(local_root):]], with
    its backslashes turned into slashes. *)
Definition below_root (cfg : config) (root : string) : string :=
  replace (drop (String.length (local_root cfg)) root) "\" "/".

(** One write into the map of files. *)
Definition put (m : gmap string string) (kv : string * string) : gmap string string :=
  <[ fst kv := snd kv ]> m.

(** The text the last write to [path] left there, if [path] was written. *)
Fixpoint last_write (path : string) (l : list (string * string)) : option string :=
  match l with
  | [] => None
  | (p, body) :: l' =>
      match last_write path l' with
      | Some b => Some b
      | None => if String.eqb p path then Some body else None
      end
  end.

(** The five comment lines that open every generated file. *)
Definition banner : string :=
  lines
    [ "# Welcome to your prefect.yaml file! You can use this file for storing and managing";
      "# configuration for deploying your flows. We recommend committing this file to source";
      "# control along with your flow code.";
      EmptyString;
      "# Generic metadata about this project" ].

End Discovery.

(** ** Concrete trees and calls *)

Module Scenarios.
Import PyStr PyNum Os Prefect.

(** The tree of the specification's scenario: [proj1/src] with two flows. *)
Definition scenario_tree : node :=
  Dir [("proj1", Dir [("src", Dir [("flow_a.py", File); ("flow_b.py", File)])])].

(** A tree without any [src] directory. *)
Definition flat_tree : node :=
  Dir [("proj1", Dir [("flow_a.py", File)]); ("notes.txt", File)].

(** [default_args] with another [project_dir]. *)
Definition other_dir_args : args := {|
  project_name := "undefined";
  project_dir := "somewhere/else";
  deployment_name := "undefined";
  entrypoint := "module.py:function";
  worker_pool := "default-worker-pool";
  schedule_interval := Finite false "36" 4;
  schedule_timezone := "UTC";
  schedule_active := "true"
|}.

(** Two projects whose flows have the same file name. *)
Definition collision_tree : node :=
  Dir [("proj1", Dir [("src", Dir [("flow.py", File)])]);
       ("proj2", Dir [("src", Dir [("flow.py", File)])])].

(** A [src] directory inside a [src] directory. *)
Definition nested_tree : node :=
  Dir [("a", Dir [("src", Dir [("outer.py", File);
                               ("src", Dir [("inner.py", File)])])])].

(** The tree [a/src/b.py] of the entry-point example. *)
Definition example_tree : node :=
  Dir [("a", Dir [("src", Dir [("b.py", File)])])].

(** A flow whose file name has two dots. *)
Definition multi_dot_tree : node :=
  Dir [("a", Dir [("src", Dir [("a.b.py", File)])])].

(** A local root whose text comes back in the paths below it. *)
Definition short_root_config : config := {|
  prefect_version := "3.0.1";
  src_root := "/P";
  local_root := "/a";
  output_folder := "/out"
|}.

(** A flow with two dots in its name, for [short_root_config]. *)
Definition short_root_tree : node :=
  Dir [("x", Dir [("src", Dir [("a.b.py", File)])])].

(** A load that fails the way a missing file does. *)
Definition missing_file : Potrace.exn :=
  {| Potrace.is_Exception := true;
     Potrace.message := "[Errno 2] No such file or directory: 'stage_main.png'" |}.

Definition no_world : Potrace.world :=
  {| Potrace.stdout := []; Potrace.files := ∅ |}.

(** A closed curve of one corner and one Bezier segment. *)
Definition triangle : Potrace.curve :=
  {| Potrace.start_point :=
       {| Potrace.x := Finite false "0" 1; Potrace.y := Finite false "0" 1 |};
     Potrace.segments :=
       [ Potrace.CornerSeg
           {| Potrace.x := Finite false "2" 1; Potrace.y := Finite false "0" 1 |}
           {| Potrace.x := Finite false "2" 1; Potrace.y := Finite false "15" 1 |};
         Potrace.BezierSeg
           {| Potrace.x := Finite false "15" 1; Potrace.y := Finite false "15" 1 |}
           {| Potrace.x := Finite false "5" 0; Potrace.y := Finite false "1" 1 |}
           {| Potrace.x := Finite false "0" 1; Potrace.y := Finite false "0" 1 |} ] |}.

(** The notebook's constants with the local root written the Windows way. *)
Definition backslash_root_config : config := {|
  prefect_version := "3.0.1";
  src_root := "/prefect/src";
  local_root := "d:\Git\thinkstack_data_etl\src";
  output_folder := "d:/exports/prefect_jobs"
|}.

(** Two calls for the deployment [flow] and one for [other]. *)
Definition flow_args_v1 : args := {|
  project_name := "proj1";
  project_dir := "/prefect/src/proj1/src";
  deployment_name := "flow";
  entrypoint := "/prefect/src/proj1/src/flow.py:flow";
  worker_pool := "default-worker-pool";
  schedule_interval := Finite false "36" 4;
  schedule_timezone := "UTC";
  schedule_active := "true"
|}.

Definition flow_args_v2 : args := {|
  project_name := "proj2";
  project_dir := "/prefect/src/proj2/src";
  deployment_name := "flow";
  entrypoint := "/prefect/src/proj2/src/flow.py:flow";
  worker_pool := "default-worker-pool";
  schedule_interval := Finite false "36" 4;
  schedule_timezone := "UTC";
  schedule_active := "false"
|}.

Definition other_args : args := {|
  project_name := "proj1";
  project_dir := "/prefect/src/proj1/src";
  deployment_name := "other";
  entrypoint := "/prefect/src/proj1/src/other.py:other";
  worker_pool := "default-worker-pool";
  schedule_interval := Finite false "36" 4;
  schedule_timezone := "UTC";
  schedule_active := "true"
|}.

(** A world that already holds a file of someone else. *)
Definition used_world : world :=
  {| Prefect.stdout := [];
     made_dirs := {[ "d:/exports" ]};
     Prefect.files := {[ "d:/exports/readme.txt" := "keep me" ]} |}.

End Scenarios.

(** * Properties *)

(** ** Facts about the string functions *)

Module PyStrFacts.
Import PyStr.

Lemma app_cons c s t : String c s +:+ t = String c (s +:+ t).
Proof. reflexivity. Qed.

Lemma app_nil_l s : EmptyString +:+ s = s.
Proof. reflexivity. Qed.

Lemma app_nil_r s : s +:+ EmptyString = s.
Proof. induction s as [|c s IH]; [reflexivity|]. rewrite app_cons, IH. reflexivity. Qed.

Lemma app_assoc s t u : (s +:+ t) +:+ u = s +:+ (t +:+ u).
Proof.
  induction s as [|c s IH]; [reflexivity|].
  rewrite !app_cons, IH. reflexivity.
Qed.

Lemma length_app s t : String.length (s +:+ t) = String.length s + String.length t.
Proof.
  induction s as [|c s IH]; [reflexivity|].
  rewrite app_cons. simpl. rewrite IH. reflexivity.
Qed.

Lemma drop_app s t : drop (String.length s) (s +:+ t) = t.
Proof.
  induction s as [|c s IH]; [destruct t; reflexivity|].
  rewrite app_cons. cbn [String.length drop]. exact IH.
Qed.

(** *** [startswith], [endswith] and [contains] *)

Lemma startswith_app s t : startswith (s +:+ t) s = true.
Proof.
  induction s as [|c s IH]; [destruct t; reflexivity|].
  rewrite app_cons. simpl. rewrite Ascii.eqb_refl, IH. reflexivity.
Qed.

Lemma startswith_char a s c :
  startswith (String a s) (String c EmptyString) = Ascii.eqb c a.
Proof. cbn [startswith]. destruct s; apply andb_true_r. Qed.

Lemma startswith_true s p : startswith s p = true -> exists t, s = p +:+ t.
Proof.
  revert s. induction p as [|a p IH]; intros s H.
  - exists s. reflexivity.
  - destruct s as [|b s]; [discriminate|]. simpl in H.
    apply andb_true_iff in H as [Hab Hs].
    apply Ascii.eqb_eq in Hab as ->.
    destruct (IH _ Hs) as [t ->]. exists t. reflexivity.
Qed.

Lemma endswith_app p suf : endswith (p +:+ suf) suf = true.
Proof.
  induction p as [|c p IH].
  - rewrite app_nil_l. destruct suf; cbn [endswith]; rewrite String.eqb_refl; reflexivity.
  - rewrite app_cons. cbn [endswith]. rewrite IH. apply orb_true_r.
Qed.


Lemma contains_cons_false c s sub :
  contains (String c s) sub = false ->
  startswith (String c s) sub = false /\ contains s sub = false.
Proof. simpl. intros H. apply orb_false_iff in H. exact H. Qed.

Lemma contains_app_r s t sub : contains (s +:+ t) sub = false -> contains t sub = false.
Proof.
  induction s as [|c s IH]; [trivial|].
  rewrite app_cons. intros H. apply contains_cons_false in H as [_ H]. auto.
Qed.

(** *** [split] and the text before the first dot *)

Lemma split_not_nil c s : split c s <> [].
Proof.
  destruct s as [|a s]; simpl; [discriminate|].
  destruct (Ascii.eqb a c); [discriminate|].
  destruct (split c s); discriminate.
Qed.

Lemma item0_split_cons c a s :
  item0 (split c (String a s)) =
  if Ascii.eqb a c then EmptyString else String a (item0 (split c s)).
Proof.
  simpl. destruct (Ascii.eqb a c); [reflexivity|].
  pose proof (split_not_nil c s) as Hne.
  destruct (split c s); [contradiction|reflexivity].
Qed.

(** A string without the separator is its own first field. *)
Lemma item0_split_absent c s :
  contains s (String c EmptyString) = false -> item0 (split c s) = s.
Proof.
  induction s as [|a s IH]; intros H; [reflexivity|].
  rewrite item0_split_cons.
  apply contains_cons_false in H as [Hst Hc].
  rewrite startswith_char in Hst.
  rewrite Ascii.eqb_sym, Hst, (IH Hc). reflexivity.
Qed.

(** The first field ends at the first separator. *)
Lemma item0_split_app c s t :
  contains s (String c EmptyString) = false ->
  item0 (split c (s +:+ String c t)) = s.
Proof.
  induction s as [|a s IH]; intros H.
  - rewrite app_nil_l, item0_split_cons, Ascii.eqb_refl. reflexivity.
  - rewrite app_cons, item0_split_cons.
    apply contains_cons_false in H as [Hst Hc].
    rewrite startswith_char in Hst.
    rewrite Ascii.eqb_sym, Hst, (IH Hc). reflexivity.
Qed.

(** The first field never holds the separator. *)
Lemma item0_split_clean c s :
  contains (item0 (split c s)) (String c EmptyString) = false.
Proof.
  induction s as [|a s IH]; [reflexivity|].
  rewrite item0_split_cons.
  destruct (Ascii.eqb a c) eqn:E; [reflexivity|].
  cbn [contains]. rewrite startswith_char, Ascii.eqb_sym, E. exact IH.
Qed.

(** A string with the separator is its first field, the separator and a
    rest. *)
Lemma item0_split_present c s :
  contains s (String c EmptyString) = true ->
  exists rest, s = item0 (split c s) +:+ String c rest.
Proof.
  induction s as [|a s IH]; intros H; [discriminate|].
  rewrite item0_split_cons.
  destruct (Ascii.eqb a c) eqn:E.
  - apply Ascii.eqb_eq in E as ->. exists s. reflexivity.
  - cbn [contains] in H. rewrite startswith_char, Ascii.eqb_sym, E in H.
    destruct (IH H) as [rest Hr]. exists rest.
    rewrite app_cons, <- Hr. reflexivity.
Qed.

(** *** [replace] *)

Lemma replace_go_skip old new t s :
  replace_go old new (String.length t) (t +:+ s) = replace_go old new 0 s.
Proof.
  induction t as [|c t IH]; [reflexivity|].
  rewrite app_cons. simpl. exact IH.
Qed.

(** A match at the front is replaced and the scan goes on behind it. *)
Lemma replace_go_match old new s :
  old <> EmptyString ->
  replace_go old new 0 (old +:+ s) = new +:+ replace_go old new 0 s.
Proof.
  intros Hne. destruct old as [|c old]; [contradiction|].
  rewrite app_cons. cbn [replace_go].
  rewrite <- app_cons, startswith_app.
  cbn [String.length]. rewrite Nat.sub_1_r. cbn [Nat.pred].
  rewrite replace_go_skip. reflexivity.
Qed.

(** Without an occurrence nothing changes. *)
Lemma replace_go_absent old new s :
  contains s old = false -> replace_go old new 0 s = s.
Proof.
  induction s as [|c s IH]; intros H; [reflexivity|].
  apply contains_cons_false in H as [Hst Hc].
  cbn [replace_go]. rewrite Hst, (IH Hc). reflexivity.
Qed.

Lemma replace_match s old new :
  old <> EmptyString ->
  replace (old +:+ s) old new = new +:+ replace s old new.
Proof.
  intros Hne. unfold replace. destruct old as [|c old]; [contradiction|].
  apply replace_go_match. discriminate.
Qed.

Lemma replace_absent s old new :
  contains s old = false -> replace s old new = s.
Proof.
  intros H. unfold replace. destruct old as [|c old].
  - destruct s; discriminate.
  - apply replace_go_absent, H.
Qed.

(** Replacing one character works character by character. *)
Lemma replace_go_char_cons a new c s :
  replace_go (String a EmptyString) new 0 (String c s) =
  (if Ascii.eqb a c then new else String c EmptyString) +:+
  replace_go (String a EmptyString) new 0 s.
Proof.
  cbn [replace_go]. rewrite startswith_char.
  destruct (Ascii.eqb a c); reflexivity.
Qed.

Lemma replace_char_app a b s t :
  replace (s +:+ t) (String a EmptyString) b =
  replace s (String a EmptyString) b +:+ replace t (String a EmptyString) b.
Proof.
  unfold replace. induction s as [|c s IH]; [reflexivity|].
  rewrite app_cons, !replace_go_char_cons, IH, app_assoc. reflexivity.
Qed.

Lemma replace_char_clean a b s :
  Ascii.eqb a b = false ->
  contains (replace s (String a EmptyString) (String b EmptyString))
           (String a EmptyString) = false.
Proof.
  intros Hab. unfold replace. induction s as [|c s IH]; [reflexivity|].
  rewrite replace_go_char_cons.
  destruct (Ascii.eqb a c) eqn:E; rewrite app_cons, app_nil_l;
    cbn [contains]; rewrite startswith_char, ?Hab, ?E; exact IH.
Qed.

(** *** [lstrip] *)

Lemma lstrip_nonspace c s : isspace c = false -> lstrip (String c s) = String c s.
Proof. intros H. simpl. rewrite H. reflexivity. Qed.

End PyStrFacts.

(** ** Facts about paths and the walk *)

Module OsFacts.
Import PyStr Os Discovery PyStrFacts.

(** Induction on a tree, with the property known of every entry of a
    directory. *)
Lemma node_ind (P : node -> Prop) :
  P File ->
  (forall es, Forall (fun e => P (snd e)) es -> P (Dir es)) ->
  forall n, P n.
Proof.
  intros HF HD. fix IH 1. intros [|es]; [exact HF|].
  apply HD. induction es as [|[name c] es IHes]; constructor.
  - apply IH.
  - exact IHes.
Qed.

Lemma last_char_snoc s c : last_char (s +:+ String c EmptyString) = Some c.
Proof.
  induction s as [|a s IH]; [reflexivity|].
  rewrite app_cons. cbn [last_char]. rewrite IH.
  destruct s; reflexivity.
Qed.

Lemma last_char_Some s c :
  last_char s = Some c -> exists t, s = t +:+ String c EmptyString.
Proof.
  induction s as [|a s IH]; [discriminate|].
  destruct s as [|b s].
  - intros [= ->]. exists EmptyString. reflexivity.
  - intros H. destruct (IH H) as [t ->]. exists (String a t). reflexivity.
Qed.

(** [join] only ever extends the path it is given. *)
Lemma join_extends pf path name : exists rest, join pf path name = path +:+ rest.
Proof.
  unfold join. destruct (last_char path) as [c|] eqn:E.
  - destruct (is_sep pf c); eauto.
  - destruct path as [|a path]; [exists name; reflexivity|].
    exfalso. revert a E. induction path as [|b path IH]; intros a E; [discriminate|].
    apply (IH b). exact E.
Qed.

Lemma path_of_extends pf top p : exists rest, path_of pf top p = top +:+ rest.
Proof.
  revert top. induction p as [|a p IH]; intros top.
  - exists EmptyString. symmetry. apply app_nil_r.
  - cbn [path_of fold_left]. destruct (join_extends pf top a) as [r1 ->].
    destruct (IH (top +:+ r1)) as [r2 E]. unfold path_of in E. rewrite E.
    exists (r1 +:+ r2). apply app_assoc.
Qed.

Lemma path_of_snoc pf top p a :
  path_of pf top (p ++ [a]) = join pf (path_of pf top p) a.
Proof. unfold path_of. rewrite fold_left_app. reflexivity. Qed.

Lemma has_sep_app pf s t : has_sep pf (s +:+ t) = has_sep pf s || has_sep pf t.
Proof.
  induction s as [|c s IH]; [reflexivity|].
  rewrite app_cons. cbn [has_sep]. rewrite IH. apply orb_assoc.
Qed.

Lemma basename_clean pf s : has_sep pf s = false -> basename pf s = s.
Proof.
  destruct s as [|c s]; [reflexivity|]. cbn [has_sep basename].
  intros H. apply orb_false_iff in H as [Hc Hs]. rewrite Hs, Hc. reflexivity.
Qed.

(** What follows the last separator is the base name. *)
Lemma basename_after_sep pf s c name :
  is_sep pf c = true -> has_sep pf name = false ->
  basename pf (s +:+ String c name) = name.
Proof.
  intros Hc Hn. induction s as [|a s IH].
  - rewrite app_nil_l. cbn [basename]. rewrite Hn, Hc. reflexivity.
  - rewrite app_cons. cbn [basename].
    rewrite has_sep_app. cbn [has_sep]. rewrite Hc, orb_true_r. exact IH.
Qed.

Lemma is_sep_os_sep pf : is_sep pf (os_sep pf) = true.
Proof. unfold is_sep. rewrite Ascii.eqb_refl. reflexivity. Qed.

(** The base name of a joined path is the entry name that was joined. *)
Lemma basename_join pf path name :
  has_sep pf name = false -> basename pf (join pf path name) = name.
Proof.
  intros Hn. unfold join. destruct (last_char path) as [c|] eqn:E.
  - destruct (is_sep pf c) eqn:Hc.
    + apply last_char_Some in E as [t ->].
      rewrite app_assoc, app_cons, app_nil_l.
      apply basename_after_sep; assumption.
    + apply basename_after_sep; [apply is_sep_os_sep | assumption].
  - apply basename_clean, Hn.
Qed.

(** The parent of a path is what precedes its last separator. *)
Lemma parent_path_before_sep pf s c name :
  is_sep pf c = true -> has_sep pf name = false ->
  parent_path pf (s +:+ String c name) = s.
Proof.
  intros Hc Hn. induction s as [|a s IH].
  - rewrite app_nil_l. cbn [parent_path]. rewrite Hn. reflexivity.
  - rewrite app_cons. cbn [parent_path].
    rewrite has_sep_app. cbn [has_sep]. rewrite Hc, orb_true_r, IH. reflexivity.
Qed.

(** The directory one level above [root/src] is [root]. *)
Lemma name_above_src pf root :
  name_above pf 1 (root +:+ "/src") = basename pf root.
Proof.
  cbn [name_above].
  change (root +:+ "/src") with (root +:+ String "/"%char "src").
  rewrite parent_path_before_sep; [reflexivity| |]; destruct pf; reflexivity.
Qed.

(** *** The walk visits exactly the directories below the root *)

Lemma walk_complete pf n : forall top p es,
  at_path n p es -> In (path_of pf top p, es) (walk pf top n).
Proof.
  intros top p es H. revert top.
  induction H as [es|es name child p es' Hin _ IH]; intros top.
  - left. reflexivity.
  - cbn [walk]. right. apply in_flat_map.
    exists (name, child). split; [exact Hin|]. apply IH.
Qed.

Lemma walk_sound pf n : forall top root es,
  In (root, es) (walk pf top n) ->
  exists p, at_path n p es /\ root = path_of pf top p.
Proof.
  induction n as [|es0 IH] using node_ind; intros top root es H.
  - destruct H.
  - cbn [walk] in H. destruct H as [H|H].
    + injection H as <- <-. exists []. split; [constructor|reflexivity].
    + apply in_flat_map in H as [[name child] [Hin Hw]].
      pose proof (proj1 (List.Forall_forall _ _) IH) as IH'.
      destruct (IH' _ Hin _ _ _ Hw) as [p [Hp ->]].
      exists (name :: p). split; [|reflexivity].
      econstructor; eassumption.
Qed.

(** *** The directory found by name *)

Lemma subdir_Some es d es' :
  subdir es d = Some es' -> In (d, Dir es') es.
Proof.
  unfold subdir. destruct (find _ es) as [[name c]|] eqn:E; [|discriminate].
  destruct c as [|es'']; [discriminate|]. intros [= ->].
  apply find_some in E as [Hin Hb]. cbn in Hb.
  apply andb_true_iff in Hb as [Hn _]. apply String.eqb_eq in Hn as <-.
  exact Hin.
Qed.

Lemma subdir_in_dirs es d es' : subdir es d = Some es' -> In d (dirs es).
Proof.
  intros H. apply subdir_Some in H. unfold dirs.
  apply in_map_iff. exists (d, Dir es'). split; [reflexivity|].
  apply filter_In. split; [exact H|reflexivity].
Qed.

End OsFacts.

(** ** Facts about the generator *)

Module GeneratorFacts.
Import PyStr PyNum Os Prefect Discovery PyStrFacts OsFacts.

Lemma fold_left_flat_map {A B C : Type} (f : A -> B -> A) (g : C -> list B) l a :
  fold_left f (flat_map g l) a = fold_left (fun a x => fold_left f (g x) a) l a.
Proof.
  revert a. induction l as [|x l IH]; intros a; [reflexivity|].
  cbn [flat_map fold_left]. rewrite fold_left_app. apply IH.
Qed.

Lemma fold_left_ext_in {A B : Type} (f g : A -> B -> A) l a :
  (forall a x, In x l -> f a x = g a x) -> fold_left f l a = fold_left g l a.
Proof.
  revert a. induction l as [|x l IH]; intros a H; [reflexivity|].
  cbn [fold_left]. rewrite (H a x (or_introl eq_refl)).
  apply IH. intros a' y Hy. apply H. right. exact Hy.
Qed.

(** *** The loop is a fold over the units *)

Lemma visit_files_units pf cfg root l w :
  fold_left (visit_file pf cfg root "src") l w =
  fold_left (process_unit pf cfg)
    (map (pair root) (List.filter (fun f => endswith f ".py") l)) w.
Proof.
  revert w. induction l as [|f l IH]; intros w; [reflexivity|].
  cbn [fold_left List.filter]. unfold visit_file at 2.
  destruct (endswith f ".py"); cbn [map fold_left]; apply IH.
Qed.

Lemma visit_dir_units pf cfg root es w d :
  visit_dir pf cfg root es w d =
  fold_left (process_unit pf cfg) (units_in_dir root es d) w.
Proof.
  unfold visit_dir, units_in_dir. destruct (String.eqb d "src") eqn:E; [|reflexivity].
  apply String.eqb_eq in E as ->. apply visit_files_units.
Qed.

Lemma visit_root_units pf cfg w r :
  visit_root pf cfg w r = fold_left (process_unit pf cfg) (units_of_root r) w.
Proof.
  unfold visit_root, units_of_root. rewrite fold_left_flat_map.
  apply fold_left_ext_in. intros. apply visit_dir_units.
Qed.

Lemma generate_units pf cfg fs w :
  generate pf cfg fs w = fold_left (process_unit pf cfg) (units pf cfg fs) w.
Proof.
  unfold generate, units. rewrite fold_left_flat_map.
  apply fold_left_ext_in. intros. apply visit_root_units.
Qed.

(** *** Which units there are *)

Lemma units_in_dir_spec root es d r f :
  In (r, f) (units_in_dir root es d) <->
  d = "src" /\ r = root /\ endswith f ".py" = true /\
  exists es', subdir es "src" = Some es' /\ In f (map fst es').
Proof.
  unfold units_in_dir. destruct (String.eqb d "src") eqn:E.
  - apply String.eqb_eq in E as ->. rewrite in_map_iff. split.
    + intros [f' [[= <- <-] Hf]]. apply filter_In in Hf as [Hin Hpy].
      repeat (split; [reflexivity || assumption|]).
      unfold listdir in Hin. destruct (subdir es "src") as [es'|]; [|destruct Hin].
      exists es'. split; [reflexivity|exact Hin].
    + intros (_ & -> & Hpy & es' & Hs & Hin). exists f. split; [reflexivity|].
      apply filter_In. split; [|exact Hpy]. unfold listdir. rewrite Hs. exact Hin.
  - split; [intros []|]. intros [-> _]. discriminate.
Qed.

Lemma units_spec pf cfg fs root file :
  In (root, file) (units pf cfg fs) <->
  exists p es es',
    at_path fs p es /\ subdir es "src" = Some es' /\ In file (map fst es') /\
    endswith file ".py" = true /\ root = path_of pf (local_root cfg) p.
Proof.
  unfold units. rewrite in_flat_map. split.
  - intros [[r es] [Hw Hu]]. unfold units_of_root in Hu. cbn [fst snd] in Hu.
    apply in_flat_map in Hu as [d [_ Hu]].
    apply units_in_dir_spec in Hu as (_ & -> & Hpy & es' & Hs & Hin).
    apply walk_sound in Hw as [p [Hp ->]].
    exists p, es, es'. auto.
  - intros (p & es & es' & Hp & Hs & Hin & Hpy & ->).
    exists (path_of pf (local_root cfg) p, es). split.
    + apply walk_complete, Hp.
    + unfold units_of_root. cbn [fst snd]. apply in_flat_map.
      exists "src". split; [eapply subdir_in_dirs; eassumption|].
      apply units_in_dir_spec. eauto 10.
Qed.

Lemma at_path_has_src fs p es es' :
  at_path fs p es -> In ("src", Dir es') es -> has_src_dir fs = true.
Proof.
  induction 1 as [es|es name child p es0 Hin _ IH]; intros Hsrc.
  - cbn [has_src_dir]. apply existsb_exists. exists ("src", Dir es').
    split; [exact Hsrc|reflexivity].
  - cbn [has_src_dir]. apply existsb_exists. exists (name, child).
    split; [exact Hin|]. cbn [snd]. rewrite (IH Hsrc). apply orb_true_r.
Qed.

Lemma no_src_no_units pf cfg fs : has_src_dir fs = false -> units pf cfg fs = [].
Proof.
  intros H. destruct (units pf cfg fs) as [|[root file] l] eqn:E; [reflexivity|].
  assert (In (root, file) (units pf cfg fs)) as Hu by (rewrite E; left; reflexivity).
  apply units_spec in Hu as (p & es & es' & Hp & Hs & _).
  apply subdir_Some in Hs. rewrite (at_path_has_src _ _ _ _ Hp Hs) in H.
  discriminate.
Qed.

(** *** What a run leaves in the world *)

Lemma files_fold pf cfg us w :
  files (fold_left (process_unit pf cfg) us w) =
  fold_left put (map (unit_write pf cfg) us) (files w).
Proof.
  revert w. induction us as [|u us IH]; intros w; [reflexivity|].
  cbn [fold_left map]. rewrite IH. reflexivity.
Qed.

Lemma made_dirs_fold pf cfg us w :
  made_dirs (fold_left (process_unit pf cfg) us w) =
  match us with
  | [] => made_dirs w
  | _ :: _ => {[ output_folder cfg ]} ∪ made_dirs w
  end.
Proof.
  revert w. induction us as [|u us IH]; intros w; [reflexivity|].
  cbn [fold_left]. rewrite IH. destruct us; cbn; [reflexivity|].
  apply leibniz_equiv. intros z. rewrite !elem_of_union. tauto.
Qed.

Lemma lookup_fold_put l (m : gmap string string) path :
  fold_left put l m !! path =
  match last_write path l with
  | Some b => Some b
  | None => m !! path
  end.
Proof.
  revert m. induction l as [|[p b] l IH]; intros m; [reflexivity|].
  cbn [fold_left last_write]. rewrite IH.
  destruct (last_write path l); [reflexivity|].
  unfold put. cbn [fst snd]. destruct (String.eqb p path) eqn:E.
  - apply String.eqb_eq in E as ->. apply lookup_insert_eq.
  - apply String.eqb_neq in E. apply lookup_insert_ne, E.
Qed.

Lemma last_write_app path l1 l2 :
  last_write path (l1 ++ l2) =
  match last_write path l2 with
  | Some b => Some b
  | None => last_write path l1
  end.
Proof.
  induction l1 as [|[p b] l1 IH]; cbn [app last_write].
  - destruct (last_write path l2); reflexivity.
  - rewrite IH. destruct (last_write path l2); reflexivity.
Qed.

Lemma last_write_None path l :
  (forall kv, In kv l -> fst kv <> path) -> last_write path l = None.
Proof.
  induction l as [|[p b] l IH]; intros H; [reflexivity|].
  cbn [last_write]. rewrite IH by (intros kv Hkv; apply H; right; exact Hkv).
  destruct (String.eqb p path) eqn:E; [|reflexivity].
  apply String.eqb_eq in E. exfalso. apply (H (p, b)); [left; reflexivity|exact E].
Qed.

Lemma last_write_In path l b : last_write path l = Some b -> In (path, b) l.
Proof.
  induction l as [|[p b'] l IH]; [discriminate|].
  cbn [last_write]. destruct (last_write path l) as [b0|].
  - intros [= ->]. right. apply IH. reflexivity.
  - destruct (String.eqb p path) eqn:E; [|discriminate].
    apply String.eqb_eq in E as ->. intros [= ->]. left. reflexivity.
Qed.

Lemma last_write_is_Some kv l : In kv l -> is_Some (last_write (fst kv) l).
Proof.
  induction l as [|[p b] l IH]; intros H; [destruct H|].
  cbn [last_write]. destruct H as [<-|H].
  - cbn [fst]. destruct (last_write p l); [eauto|].
    rewrite String.eqb_refl. eauto.
  - destruct (IH H) as [b0 ->]. eauto.
Qed.

(** Distinct deployment names are written to distinct paths. *)
Lemma app_inj_r s1 s2 t : s1 +:+ t = s2 +:+ t -> s1 = s2.
Proof.
  revert s2. induction s1 as [|c s1 IH]; intros [|c' s2] H.
  - reflexivity.
  - exfalso. apply (f_equal String.length) in H.
    rewrite !length_app in H. cbn [String.length] in H. lia.
  - exfalso. apply (f_equal String.length) in H.
    rewrite !length_app in H. cbn [String.length] in H. lia.
  - rewrite !app_cons in H. injection H as -> H. f_equal. apply IH, H.
Qed.

Lemma output_path_inj cfg d1 d2 : output_path cfg d1 = output_path cfg d2 -> d1 = d2.
Proof.
  unfold output_path. intros H.
  apply String.app_inj in H. apply String.app_inj in H.
  eapply app_inj_r, H.
Qed.

(** The template starts with a comment sign, so [lstrip] removes nothing. *)
Lemma yaml_body_unfold cfg a :
  yaml_body cfg a =
  lines (yaml_head cfg a) +:+ lines (yaml_deployments a) +:+ lines (yaml_schedules a).
Proof.
  assert (Hl : forall l1 l2, lines (l1 ++ l2) = lines l1 +:+ lines l2).
  { induction l1 as [|x l1 IH]; intros l2; [reflexivity|].
    cbn [app lines]. rewrite IH, !app_assoc. reflexivity. }
  unfold yaml_body. rewrite !Hl. reflexivity.
Qed.

(** The [name] field comes right after the opening comment lines. *)
Lemma yaml_body_name cfg a :
  exists rest,
    yaml_body cfg a = banner +:+ "name: " +:+ project_name a +:+ nl +:+ rest.
Proof.
  eexists. rewrite yaml_body_unfold. unfold yaml_head, banner.
  cbn [lines]. rewrite !app_assoc. reflexivity.
Qed.

(** The [entrypoint] field of the one deployment. *)
Lemma yaml_body_entrypoint cfg a :
  exists pre post,
    yaml_body cfg a = pre +:+ "  entrypoint: " +:+ entrypoint a +:+ nl +:+ post.
Proof.
  exists (lines (yaml_head cfg a) +:+
          lines (firstn 7 (yaml_deployments a))).
  eexists. rewrite yaml_body_unfold. unfold yaml_deployments.
  cbn [lines firstn]. rewrite !app_assoc. reflexivity.
Qed.

Lemma count_dots_app s t : count_dots (s +:+ t) = count_dots s + count_dots t.
Proof.
  induction s as [|c s IH]; [reflexivity|].
  rewrite app_cons. cbn [count_dots]. rewrite IH. lia.
Qed.

Lemma count_dots_clean s : contains s "." = false -> count_dots s = 0.
Proof.
  induction s as [|c s IH]; intros H; [reflexivity|].
  apply contains_cons_false in H as [Hst Hc]. rewrite startswith_char in Hst.
  cbn [count_dots]. rewrite Ascii.eqb_sym, Hst, (IH Hc). reflexivity.
Qed.

Lemma count_dots_positive s : 0 < count_dots s -> contains s "." = true.
Proof.
  intros H. destruct (contains s ".") eqn:E; [reflexivity|].
  rewrite (count_dots_clean _ E) in H. lia.
Qed.

(** The deployment name is the file name up to its first dot. *)
Lemma deployment_of_stem stem ext :
  contains stem "." = false -> deployment_of (stem +:+ "." +:+ ext) = stem.
Proof. intros H. apply (item0_split_app "."%char stem ext H). Qed.

(** The root of every unit starts with the scanned root. *)
Lemma unit_root_extends pf cfg fs root file :
  In (root, file) (units pf cfg fs) -> exists rest, root = local_root cfg +:+ rest.
Proof.
  intros H. apply units_spec in H as (p & _ & _ & _ & _ & _ & _ & ->).
  apply path_of_extends.
Qed.

(** The [name] field of the one deployment. *)
Lemma yaml_body_deployment cfg a :
  exists pre post,
    yaml_body cfg a = pre +:+ "- name: " +:+ deployment_name a +:+ nl +:+ post.
Proof.
  exists (lines (yaml_head cfg a) +:+
          lines (firstn 2 (yaml_deployments a))).
  eexists. rewrite yaml_body_unfold. unfold yaml_deployments.
  cbn [lines firstn]. rewrite !app_assoc. reflexivity.
Qed.

(** The remote form of [root/src/d.py:d] for a root below a local root
    that is found in the text only as its start. *)
Lemma to_remote_below_root cfg rest d :
  local_root cfg <> EmptyString ->
  contains (local_root cfg) "\" = false ->
  contains d "\" = false ->
  contains (replace rest "\" "/" +:+ "/src/" +:+ d +:+ ".py:" +:+ d)
           (local_root cfg) = false ->
  to_remote cfg ((local_root cfg +:+ rest) +:+ "/" +:+ "src" +:+ "/" +:+ d +:+
                 ".py:" +:+ d) =
  src_root cfg +:+ replace rest "\" "/" +:+ "/src/" +:+ d +:+ ".py:" +:+ d.
Proof.
  intros Hne Hroot Hback Hocc. unfold to_remote. rewrite app_assoc.
  change ("/" +:+ "src" +:+ "/" +:+ d +:+ ".py:" +:+ d)
    with ("/src/" +:+ d +:+ ".py:" +:+ d).
  rewrite !(replace_char_app "\"%char).
  rewrite (replace_absent (local_root cfg)) by exact Hroot.
  rewrite (replace_absent d) by exact Hback.
  change (replace "/src/" "\" "/") with "/src/".
  change (replace ".py:" "\" "/") with ".py:".
  rewrite (replace_match _ _ _ Hne).
  rewrite (replace_absent _ _ _ Hocc). reflexivity.
Qed.

End GeneratorFacts.

(** ** The generator's specification *)

Module PrefectSpec.
Import PyStr PyNum Os Prefect Discovery Scenarios.
Import PyStrFacts OsFacts GeneratorFacts.

(** C9. Two calls of [create_deployment_yaml] that differ only in
    [project_dir] write the same text to the same path and leave the same
    world: [project_dir] never reaches the output. *)
Theorem project_dir_noninterference (cfg : config) (a b : args) (w : world) :
  same_but_project_dir a b ->
  output_path cfg (deployment_name a) = output_path cfg (deployment_name b) /\
  yaml_body cfg a = yaml_body cfg b /\
  create_deployment_yaml cfg a w = create_deployment_yaml cfg b w.
Proof.
  destruct a, b. unfold same_but_project_dir. cbn.
  intros (-> & -> & -> & -> & -> & -> & ->).
  repeat split.
Qed.

Lemma project_dir_noninterference_witness :
  same_but_project_dir default_args other_dir_args /\
  output_path notebook_config (deployment_name default_args) =
    output_path notebook_config (deployment_name other_dir_args) /\
  yaml_body notebook_config default_args =
    yaml_body notebook_config other_dir_args /\
  create_deployment_yaml notebook_config default_args empty_world =
    create_deployment_yaml notebook_config other_dir_args empty_world.
Proof.
  assert (H : same_but_project_dir default_args other_dir_args)
    by (unfold same_but_project_dir; cbn; repeat split).
  split; [exact H|].
  exact (project_dir_noninterference notebook_config default_args other_dir_args
           empty_world H).
Defined.

(** Every generated file ends with the [schedules] stanza of its call. *)
Lemma yaml_body_schedules cfg a :
  exists pre,
    yaml_body cfg a =
    pre +:+ schedule_stanza (float_repr (schedule_interval a))
              (schedule_timezone a) (schedule_active a).
Proof.
  exists (lines (yaml_head cfg a) +:+ lines (yaml_deployments a)).
  rewrite yaml_body_unfold, app_assoc. reflexivity.
Qed.

(** C5. The [schedules] stanza of a generated file shows the
    [schedule_interval], [schedule_timezone] and [schedule_active] of the
    call as they are, the interval as Python prints that float; a run
    writes one file per unit, and each carries the values the loop passes:
    [3600.0], [UTC] and [true]. *)
Theorem schedule_fields_echo (pf : platform) (cfg : config) (fs : node)
    (w : world) (a : args) :
  (exists pre,
     yaml_body cfg a =
     pre +:+ schedule_stanza (float_repr (schedule_interval a))
               (schedule_timezone a) (schedule_active a)) /\
  files (generate pf cfg fs w) =
    fold_left put (map (unit_write pf cfg) (units pf cfg fs)) (files w) /\
  Forall (fun kv => exists pre,
            snd kv = pre +:+ schedule_stanza "3600.0" "UTC" "true")
         (map (unit_write pf cfg) (units pf cfg fs)).
Proof.
  split; [apply yaml_body_schedules|]. split.
  - rewrite generate_units. apply files_fold.
  - apply List.Forall_forall. intros kv Hkv.
    apply in_map_iff in Hkv as [u [<- _]]. cbn [unit_write snd].
    apply (yaml_body_schedules cfg (call_args pf cfg (fst u) "src" (snd u))).
Qed.

(** C4. Running the generator again on the same tree changes neither the
    files nor the directories the first run left: every run issues the
    same writes, whatever world it starts from, and replaying them over
    their own result is the identity. *)
Theorem generate_idempotent (pf : platform) (cfg : config) (fs : node) (w : world) :
  (forall w',
     files (generate pf cfg fs w') =
     fold_left put (map (unit_write pf cfg) (units pf cfg fs)) (files w')) /\
  files (generate pf cfg fs (generate pf cfg fs w)) = files (generate pf cfg fs w) /\
  made_dirs (generate pf cfg fs (generate pf cfg fs w)) =
    made_dirs (generate pf cfg fs w).
Proof.
  assert (Hf : forall w',
     files (generate pf cfg fs w') =
     fold_left put (map (unit_write pf cfg) (units pf cfg fs)) (files w'))
    by (intros w'; rewrite generate_units; apply files_fold).
  split; [exact Hf|]. split.
  - rewrite (Hf (generate pf cfg fs w)), (Hf w).
    apply map_eq. intros path. rewrite !lookup_fold_put.
    destruct (last_write path _); reflexivity.
  - rewrite !generate_units, !made_dirs_fold.
    destruct (units pf cfg fs); [reflexivity|].
    apply leibniz_equiv. intros z. rewrite !elem_of_union. tauto.
Qed.

(** C3, as the code has it. Without a directory named [src] anywhere
    below the root the loop never calls [create_deployment_yaml]: the
    world is left as it was, no file is written and no directory made. *)
Theorem no_src_changes_nothing (pf : platform) (cfg : config) (fs : node) (w : world) :
  has_src_dir fs = false ->
  units pf cfg fs = [] /\ generate pf cfg fs w = w.
Proof.
  intros H. pose proof (no_src_no_units pf cfg fs H) as Hu.
  split; [exact Hu|]. rewrite generate_units, Hu. reflexivity.
Qed.

Lemma no_src_changes_nothing_witness :
  has_src_dir flat_tree = false /\
  units Nt notebook_config flat_tree = [] /\
  generate Nt notebook_config flat_tree empty_world = empty_world.
Proof.
  assert (H : has_src_dir flat_tree = false) by reflexivity.
  split; [exact H|].
  exact (no_src_changes_nothing Nt notebook_config flat_tree empty_world H).
Defined.

(** C3 as stated fails: on a tree without [src] the run from an empty
    world has not made the output folder. *)
Lemma no_src_output_folder_not_made :
  has_src_dir flat_tree = false /\
  files (generate Nt notebook_config flat_tree empty_world) = ∅ /\
  output_folder notebook_config ∉
    made_dirs (generate Nt notebook_config flat_tree empty_world).
Proof.
  assert (E : generate Nt notebook_config flat_tree empty_world = empty_world)
    by reflexivity.
  rewrite E. split; [reflexivity|]. split; [reflexivity|].
  apply not_elem_of_empty.
Qed.

(** C6. The file of a deployment name holds what the last unit with that
    name wrote, whatever units came before it; the run itself is a total
    function, so nothing is raised. Every unit's deployment name has its
    file after the run, and different names have different files. *)
Theorem collision_last_write_wins (pf : platform) (cfg : config) (fs : node)
    (w : world) (before after : list (string * string)) (u : string * string) :
  units pf cfg fs = before ++ u :: after ->
  (forall v, In v after -> deployment_of (snd v) <> deployment_of (snd u)) ->
  files (generate pf cfg fs w) !! output_path cfg (deployment_of (snd u)) =
    Some (yaml_body cfg (call_args pf cfg (fst u) "src" (snd u))) /\
  (forall v, In v (units pf cfg fs) ->
     is_Some (files (generate pf cfg fs w) !!
                output_path cfg (deployment_of (snd v)))) /\
  (forall d1 d2, output_path cfg d1 = output_path cfg d2 -> d1 = d2).
Proof.
  intros Hu Hafter.
  assert (Hf : files (generate pf cfg fs w) =
     fold_left put (map (unit_write pf cfg) (units pf cfg fs)) (files w))
    by (rewrite generate_units; apply files_fold).
  rewrite Hf. split; [|split].
  - rewrite lookup_fold_put, Hu, map_app, last_write_app. cbn [map last_write].
    rewrite last_write_None.
    + cbn [unit_write fst snd]. rewrite String.eqb_refl. reflexivity.
    + intros kv Hkv. apply in_map_iff in Hkv as [v [<- Hv]].
      cbn [unit_write fst]. intros E. apply output_path_inj in E.
      exact (Hafter v Hv E).
  - intros v Hv. rewrite lookup_fold_put.
    destruct (last_write_is_Some (unit_write pf cfg v)
                (map (unit_write pf cfg) (units pf cfg fs))) as [b Hb].
    { apply in_map, Hv. }
    cbn [unit_write fst] in Hb. rewrite Hb. eauto.
  - apply output_path_inj.
Qed.

Lemma collision_last_write_wins_witness :
  files (generate Nt notebook_config collision_tree empty_world) !!
    output_path notebook_config "flow" =
    Some (yaml_body notebook_config
            (call_args Nt notebook_config
               "d:/Git/thinkstack_data_etl/src\proj2" "src" "flow.py")) /\
  (forall v, In v (units Nt notebook_config collision_tree) ->
     is_Some (files (generate Nt notebook_config collision_tree empty_world) !!
                output_path notebook_config (deployment_of (snd v)))) /\
  (forall d1 d2,
     output_path notebook_config d1 = output_path notebook_config d2 -> d1 = d2).
Proof.
  apply (collision_last_write_wins Nt notebook_config collision_tree empty_world
           [("d:/Git/thinkstack_data_etl/src\proj1", "flow.py")] []
           ("d:/Git/thinkstack_data_etl/src\proj2", "flow.py")).
  - reflexivity.
  - intros v [].
Defined.

(** C7. Whatever the way [p] from the root to a directory, through
    directories named [src] or not: when that directory has a directory
    named [src], every entry of it whose name ends in [.py] is a unit of
    the run, and after the run the file named after its deployment name
    is there. *)
Theorem every_src_directory_is_scanned (pf : platform) (cfg : config)
    (fs : node) (w : world) (p : list string) (es es' : list (string * node))
    (file : string) (child : node) :
  at_path fs p es ->
  subdir es "src" = Some es' ->
  In (file, child) es' ->
  endswith file ".py" = true ->
  In (path_of pf (local_root cfg) p, file) (units pf cfg fs) /\
  is_Some (files (generate pf cfg fs w) !!
             (output_folder cfg +:+ "/" +:+ deployment_of file +:+ "-deploy.yaml")).
Proof.
  intros Hp Hs Hin Hpy.
  assert (Hu : In (path_of pf (local_root cfg) p, file) (units pf cfg fs)).
  { apply units_spec. exists p, es, es'. repeat split; try assumption.
    apply in_map_iff. exists (file, child). split; [reflexivity|exact Hin]. }
  split; [exact Hu|].
  rewrite generate_units, files_fold, lookup_fold_put.
  destruct (last_write_is_Some
              (unit_write pf cfg (path_of pf (local_root cfg) p, file))
              (map (unit_write pf cfg) (units pf cfg fs))) as [b Hb].
  { apply in_map, Hu. }
  cbn [unit_write fst snd] in Hb. unfold output_path in Hb. rewrite Hb. eauto.
Qed.

Lemma every_src_directory_is_scanned_witness :
  In ("d:/Git/thinkstack_data_etl/src\a\src", "inner.py")
     (units Nt notebook_config nested_tree) /\
  is_Some (files (generate Nt notebook_config nested_tree empty_world) !!
             "d:/exports/prefect_jobs/inner-deploy.yaml").
Proof.
  apply (every_src_directory_is_scanned Nt notebook_config nested_tree empty_world
           ["a"; "src"]
           [("outer.py", File); ("src", Dir [("inner.py", File)])]
           [("inner.py", File)] "inner.py" File).
  - eapply at_step; [left; reflexivity|].
    eapply at_step; [left; reflexivity|]. apply at_here.
  - reflexivity.
  - left. reflexivity.
  - reflexivity.
Defined.

(** C2, as the code has it. The project name of a unit is the base name
    of the directory that holds the matched [src] directory, one level
    above it: for a [src] under a directory entered by the name [d], it
    is [d]. It is the [name] field that follows the opening comment of
    the generated file. *)
Theorem project_name_is_parent_of_src (pf : platform) (cfg : config)
    (fs : node) (p : list string) (es es' : list (string * node)) (file : string) :
  at_path fs p es ->
  subdir es "src" = Some es' ->
  In file (map fst es') ->
  endswith file ".py" = true ->
  In (path_of pf (local_root cfg) p, file) (units pf cfg fs) /\
  project_name (call_args pf cfg (path_of pf (local_root cfg) p) "src" file) =
    name_above pf 1 (path_of pf (local_root cfg) p +:+ "/src") /\
  (forall p' d, p = p' ++ [d] -> has_sep pf d = false ->
     project_name (call_args pf cfg (path_of pf (local_root cfg) p) "src" file) = d) /\
  exists rest,
    yaml_body cfg (call_args pf cfg (path_of pf (local_root cfg) p) "src" file) =
    banner +:+ "name: " +:+
    project_name (call_args pf cfg (path_of pf (local_root cfg) p) "src" file) +:+
    nl +:+ rest.
Proof.
  intros Hp Hs Hin Hpy. split; [|split; [|split]].
  - apply units_spec. exists p, es, es'. auto.
  - cbn [call_args project_name]. symmetry. apply name_above_src.
  - intros p' d -> Hd. cbn [call_args project_name].
    rewrite path_of_snoc. apply basename_join, Hd.
  - apply yaml_body_name.
Qed.

Lemma project_name_is_parent_of_src_witness :
  In ("d:/Git/thinkstack_data_etl/src\proj1", "flow_a.py")
     (units Nt notebook_config scenario_tree) /\
  project_name (call_args Nt notebook_config
                  "d:/Git/thinkstack_data_etl/src\proj1" "src" "flow_a.py") =
    name_above Nt 1 ("d:/Git/thinkstack_data_etl/src\proj1" +:+ "/src") /\
  (forall p' d, ["proj1"] = p' ++ [d] -> has_sep Nt d = false ->
     project_name (call_args Nt notebook_config
                     "d:/Git/thinkstack_data_etl/src\proj1" "src" "flow_a.py") = d) /\
  exists rest,
    yaml_body notebook_config
      (call_args Nt notebook_config
         "d:/Git/thinkstack_data_etl/src\proj1" "src" "flow_a.py") =
    banner +:+ "name: " +:+ "proj1" +:+ nl +:+ rest.
Proof.
  apply (project_name_is_parent_of_src Nt notebook_config scenario_tree ["proj1"]
           [("src", Dir [("flow_a.py", File); ("flow_b.py", File)])]
           [("flow_a.py", File); ("flow_b.py", File)] "flow_a.py").
  - eapply at_step; [left; reflexivity|]. apply at_here.
  - reflexivity.
  - left. reflexivity.
  - reflexivity.
Defined.

(** C2 as stated fails: in the scenario [proj1/src/flow_a.py] the name
    written is [proj1], the directory holding [src], while the directory
    two levels above [src] is the scanned root, whose name is [src]. *)
Lemma project_name_not_two_levels_above :
  In ("d:/Git/thinkstack_data_etl/src\proj1", "flow_a.py")
     (units Nt notebook_config scenario_tree) /\
  project_name (call_args Nt notebook_config
                  "d:/Git/thinkstack_data_etl/src\proj1" "src" "flow_a.py") = "proj1" /\
  name_above Nt 2 ("d:/Git/thinkstack_data_etl/src\proj1" +:+ "/src") = "src" /\
  project_name (call_args Nt notebook_config
                  "d:/Git/thinkstack_data_etl/src\proj1" "src" "flow_a.py") <>
    name_above Nt 2 ("d:/Git/thinkstack_data_etl/src\proj1" +:+ "/src").
Proof.
  split; [left; reflexivity|]. split; [reflexivity|]. split; [reflexivity|].
  discriminate.
Qed.

(** C1, as the code has it. For a unit [stem.py] whose stem has no dot
    and no backslash, found under [root], with a non-empty [local_root]
    free of backslashes that does not come back in what follows it: [root]
    starts with [local_root], and the entry point is [src_root], then the
    rest of [root] with its backslashes turned into slashes, then
    [/src/stem.py:stem]; that is the [entrypoint] field of the generated
    file. *)
Theorem entrypoint_substitution (pf : platform) (cfg : config) (fs : node)
    (root stem : string) :
  In (root, stem +:+ ".py") (units pf cfg fs) ->
  local_root cfg <> EmptyString ->
  contains (local_root cfg) "\" = false ->
  contains stem "." = false ->
  contains stem "\" = false ->
  contains (below_root cfg root +:+ "/src/" +:+ stem +:+ ".py:" +:+ stem)
           (local_root cfg) = false ->
  root = local_root cfg +:+ drop (String.length (local_root cfg)) root /\
  entrypoint (call_args pf cfg root "src" (stem +:+ ".py")) =
    src_root cfg +:+ below_root cfg root +:+ "/src/" +:+ stem +:+ ".py:" +:+ stem /\
  exists pre post,
    yaml_body cfg (call_args pf cfg root "src" (stem +:+ ".py")) =
    pre +:+ "  entrypoint: " +:+
    (src_root cfg +:+ below_root cfg root +:+ "/src/" +:+ stem +:+ ".py:" +:+ stem)
    +:+ nl +:+ post.
Proof.
  intros Hunit Hne Hroot Hdot Hback Hocc.
  destruct (unit_root_extends _ _ _ _ _ Hunit) as [rest ->].
  unfold below_root in *. rewrite drop_app in *.
  split; [reflexivity|].
  assert (E : entrypoint (call_args pf cfg (local_root cfg +:+ rest) "src"
                            (stem +:+ ".py")) =
    src_root cfg +:+ replace rest "\" "/" +:+ "/src/" +:+ stem +:+ ".py:" +:+ stem).
  { cbn [call_args entrypoint].
    change (stem +:+ ".py") with (stem +:+ "." +:+ "py").
    rewrite (deployment_of_stem stem "py" Hdot).
    unfold to_remote. rewrite app_assoc.
    change ("/" +:+ "src" +:+ "/" +:+ stem +:+ ".py:" +:+ stem)
      with ("/src/" +:+ stem +:+ ".py:" +:+ stem).
    rewrite !(replace_char_app "\"%char).
    rewrite (replace_absent (local_root cfg)) by exact Hroot.
    rewrite (replace_absent stem) by exact Hback.
    change (replace "/src/" "\" "/") with "/src/".
    change (replace ".py:" "\" "/") with ".py:".
    rewrite (replace_match _ _ _ Hne).
    rewrite (replace_absent _ _ _ Hocc). reflexivity. }
  split; [exact E|]. rewrite <- E. apply yaml_body_entrypoint.
Qed.

Lemma entrypoint_substitution_witness :
  "d:/Git/thinkstack_data_etl/src\a" = "d:/Git/thinkstack_data_etl/src" +:+ "\a" /\
  entrypoint (call_args Nt notebook_config
                "d:/Git/thinkstack_data_etl/src\a" "src" "b.py") =
    "/prefect/src/a/src/b.py:b" /\
  exists pre post,
    yaml_body notebook_config
      (call_args Nt notebook_config
         "d:/Git/thinkstack_data_etl/src\a" "src" "b.py") =
    pre +:+ "  entrypoint: " +:+ "/prefect/src/a/src/b.py:b" +:+ nl +:+ post.
Proof.
  apply (entrypoint_substitution Nt notebook_config example_tree
           "d:/Git/thinkstack_data_etl/src\a" "b").
  - left. reflexivity.
  - discriminate.
  - reflexivity.
  - reflexivity.
  - reflexivity.
  - reflexivity.
Defined.

(** C1 as stated fails twice. A file name with two dots gives an entry
    point that names another file; and a local root whose text comes back
    below it is replaced there too. *)
Lemma entrypoint_not_always_the_file_path :
  (In ("d:/Git/thinkstack_data_etl/src\a", "a.b.py")
      (units Nt notebook_config multi_dot_tree) /\
   entrypoint (call_args Nt notebook_config
                 "d:/Git/thinkstack_data_etl/src\a" "src" "a.b.py") =
     "/prefect/src/a/src/a.py:a" /\
   entrypoint (call_args Nt notebook_config
                 "d:/Git/thinkstack_data_etl/src\a" "src" "a.b.py") <>
     "/prefect/src/a/src/a.b.py:a") /\
  (In ("/a/a", "b.py") (units Posix short_root_config example_tree) /\
   entrypoint (call_args Posix short_root_config "/a/a" "src" "b.py") =
     "/P/P/src/b.py:b" /\
   entrypoint (call_args Posix short_root_config "/a/a" "src" "b.py") <>
     "/P/a/src/b.py:b").
Proof.
  split; (split; [left; reflexivity|]); (split; [reflexivity|discriminate]).
Qed.

(** C10, as the code has it. For a unit whose file name has more than one
    dot, the deployment name is the text before the first dot, so it is
    not the name without its [.py]. The loop body writes the generated
    text to [<deployment>-deploy.yaml] in the output folder, that file is
    there after the run, and the text names the deployment. When the local
    root is not empty, has no backslash and is found again neither in the
    rest of the root nor in what is appended, and the deployment name has
    no backslash, the entry point is [src_root], the rest of the root, and
    [/src/<deployment>.py:<deployment>]: it names [<deployment>.py] and
    not the file found. *)
Theorem multi_dot_deployment_name (pf : platform) (cfg : config) (fs : node)
    (w : world) (root file : string) :
  In (root, file) (units pf cfg fs) ->
  1 < count_dots file ->
  contains (deployment_of file) "." = false /\
  (exists rest, file = deployment_of file +:+ "." +:+ rest) /\
  deployment_of file +:+ ".py" <> file /\
  Prefect.files (visit_file pf cfg root "src" w file) !!
    (output_folder cfg +:+ "/" +:+ deployment_of file +:+ "-deploy.yaml") =
    Some (yaml_body cfg (call_args pf cfg root "src" file)) /\
  is_Some (Prefect.files (generate pf cfg fs w) !!
             (output_folder cfg +:+ "/" +:+ deployment_of file +:+ "-deploy.yaml")) /\
  (exists pre post,
     yaml_body cfg (call_args pf cfg root "src" file) =
     pre +:+ "- name: " +:+ deployment_of file +:+ nl +:+ post) /\
  (local_root cfg <> EmptyString ->
   contains (local_root cfg) "\" = false ->
   contains (deployment_of file) "\" = false ->
   contains (below_root cfg root +:+ "/src/" +:+ deployment_of file +:+ ".py:" +:+
             deployment_of file) (local_root cfg) = false ->
   entrypoint (call_args pf cfg root "src" file) =
     src_root cfg +:+ below_root cfg root +:+ "/src/" +:+ deployment_of file +:+
     ".py:" +:+ deployment_of file /\
   exists pre post,
     yaml_body cfg (call_args pf cfg root "src" file) =
     pre +:+ "  entrypoint: " +:+
     (src_root cfg +:+ below_root cfg root +:+ "/src/" +:+ deployment_of file +:+
      ".py:" +:+ deployment_of file) +:+ nl +:+ post).
Proof.
  intros Hunit Hdots.
  assert (Hpy : endswith file ".py" = true).
  { apply units_spec in Hunit as (_ & _ & _ & _ & _ & _ & Hpy & _). exact Hpy. }
  assert (Hclean : contains (deployment_of file) "." = false)
    by apply (item0_split_clean "."%char).
  split; [exact Hclean|]. split; [|split; [|split; [|split; [|split]]]].
  - apply (item0_split_present "."%char). apply count_dots_positive. lia.
  - intros E. rewrite <- E in Hdots.
    rewrite count_dots_app, (count_dots_clean _ Hclean) in Hdots.
    cbn in Hdots. lia.
  - unfold visit_file. rewrite Hpy. unfold create_deployment_yaml, output_path.
    cbn [write_file Prefect.files call_args deployment_name].
    apply lookup_insert_eq.
  - rewrite generate_units, files_fold, lookup_fold_put.
    destruct (last_write_is_Some (unit_write pf cfg (root, file))
                (map (unit_write pf cfg) (units pf cfg fs))) as [b Hb].
    { apply in_map, Hunit. }
    cbn [unit_write fst snd] in Hb. unfold output_path in Hb. rewrite Hb. eauto.
  - apply (yaml_body_deployment cfg (call_args pf cfg root "src" file)).
  - intros Hne Hroot Hback Hocc.
    destruct (unit_root_extends _ _ _ _ _ Hunit) as [rest ->].
    unfold below_root in *. rewrite drop_app in *.
    assert (E : entrypoint (call_args pf cfg (local_root cfg +:+ rest) "src" file) =
      src_root cfg +:+ replace rest "\" "/" +:+ "/src/" +:+ deployment_of file +:+
      ".py:" +:+ deployment_of file).
    { cbn [call_args entrypoint].
      apply to_remote_below_root; assumption. }
    split; [exact E|]. rewrite <- E. apply yaml_body_entrypoint.
Qed.

Lemma multi_dot_deployment_name_witness :
  contains "a" "." = false /\
  (exists rest, "a.b.py" = "a" +:+ "." +:+ rest) /\
  "a" +:+ ".py" <> "a.b.py" /\
  Prefect.files (visit_file Nt notebook_config "d:/Git/thinkstack_data_etl/src\a"
                   "src" empty_world "a.b.py") !!
    "d:/exports/prefect_jobs/a-deploy.yaml" =
    Some (yaml_body notebook_config
            (call_args Nt notebook_config
               "d:/Git/thinkstack_data_etl/src\a" "src" "a.b.py")) /\
  is_Some (Prefect.files (generate Nt notebook_config multi_dot_tree empty_world) !!
             "d:/exports/prefect_jobs/a-deploy.yaml") /\
  (exists pre post,
     yaml_body notebook_config
       (call_args Nt notebook_config
          "d:/Git/thinkstack_data_etl/src\a" "src" "a.b.py") =
     pre +:+ "- name: " +:+ "a" +:+ nl +:+ post) /\
  entrypoint (call_args Nt notebook_config
                "d:/Git/thinkstack_data_etl/src\a" "src" "a.b.py") =
    "/prefect/src/a/src/a.py:a" /\
  exists pre post,
    yaml_body notebook_config
      (call_args Nt notebook_config
         "d:/Git/thinkstack_data_etl/src\a" "src" "a.b.py") =
    pre +:+ "  entrypoint: " +:+ "/prefect/src/a/src/a.py:a" +:+ nl +:+ post.
Proof.
  destruct (multi_dot_deployment_name Nt notebook_config multi_dot_tree empty_world
              "d:/Git/thinkstack_data_etl/src\a" "a.b.py")
    as (H1 & H2 & H3 & H4 & H5 & H6 & H7).
  - left. reflexivity.
  - cbn. lia.
  - split; [exact H1|]. split; [exact H2|]. split; [exact H3|].
    split; [exact H4|]. split; [exact H5|]. split; [exact H6|].
    apply H7.
    + discriminate.
    + reflexivity.
    + reflexivity.
    + reflexivity.
Defined.

(** C10 as stated fails in its last part. With the local root [/a], the
    unit [a.b.py] under [/a/x] has the deployment name [a], but the
    replacement of the local root also hits the [/a] of [/a.py]: the entry
    point is [/P/x/src/P.py:a] and names no [a.py]. *)
Lemma multi_dot_entrypoint_not_always_dep_py :
  In ("/a/x", "a.b.py") (units Posix short_root_config short_root_tree) /\
  1 < count_dots "a.b.py" /\
  deployment_of "a.b.py" = "a" /\
  entrypoint (call_args Posix short_root_config "/a/x" "src" "a.b.py") =
    "/P/x/src/P.py:a" /\
  contains (entrypoint (call_args Posix short_root_config "/a/x" "src" "a.b.py"))
           "a.py" = false.
Proof.
  split; [left; reflexivity|]. split; [cbn; lia|].
  split; [reflexivity|]. split; reflexivity.
Qed.

End PrefectSpec.

(** ** The tracer's specification *)

Module PotraceSpec.
Import PyStr PyNum Os Potrace Scenarios.

(** C8. When [Image.open] or [ImageOps.equalize] raises an [Exception],
    [file_to_svg] returns normally: it has printed the loading line and
    the failure line with the exception's text, and the files are as they
    were. *)
Theorem load_failure_is_caught (image : Type) (width height : image -> Z)
    (Image_open : string -> result image)
    (ImageOps_equalize : image -> result image)
    (Bitmap_trace : image -> result (list curve))
    (pf : platform) (filename : string) (e : exn) (w : world) :
  load_image image Image_open ImageOps_equalize filename = Raise e ->
  is_Exception e = true ->
  fst (file_to_svg image width height Image_open ImageOps_equalize
         Bitmap_trace pf filename w) = Returned /\
  stdout (snd (file_to_svg image width height Image_open ImageOps_equalize
                 Bitmap_trace pf filename w)) =
    stdout w ++ ["Loading image " +:+ filename +:+ "...";
                 "Failed to load image " +:+ filename +:+ ": " +:+ message e] /\
  files (snd (file_to_svg image width height Image_open ImageOps_equalize
                Bitmap_trace pf filename w)) = files w.
Proof.
  intros Hload Hexn. unfold file_to_svg. rewrite Hload, Hexn.
  cbn [fst snd print stdout files]. rewrite <- List.app_assoc.
  repeat split.
Qed.

Lemma load_failure_is_caught_witness :
  fst (file_to_svg unit (fun _ => 0%Z) (fun _ => 0%Z)
         (fun _ => Raise missing_file) Ok (fun _ => Ok [])
         Posix "stage_main.png" no_world) = Returned /\
  stdout (snd (file_to_svg unit (fun _ => 0%Z) (fun _ => 0%Z)
                 (fun _ => Raise missing_file) Ok (fun _ => Ok [])
                 Posix "stage_main.png" no_world)) =
    [] ++ ["Loading image " +:+ "stage_main.png" +:+ "...";
           "Failed to load image " +:+ "stage_main.png" +:+ ": " +:+
           message missing_file] /\
  files (snd (file_to_svg unit (fun _ => 0%Z) (fun _ => 0%Z)
                (fun _ => Raise missing_file) Ok (fun _ => Ok [])
                Posix "stage_main.png" no_world)) = ∅.
Proof.
  apply (load_failure_is_caught unit (fun _ => 0%Z) (fun _ => 0%Z)
           (fun _ => Raise missing_file) Ok (fun _ => Ok [])
           Posix "stage_main.png" missing_file no_world).
  - reflexivity.
  - reflexivity.
Defined.

End PotraceSpec.

(** ** More facts about strings and the written files *)

Module MoreFacts.
Import PyStr PyNum Os Prefect Discovery PyStrFacts OsFacts GeneratorFacts.

(** A character is in [s +:+ t] when it is in [s] or in [t]. *)
Lemma contains_char_app c s t :
  contains (s +:+ t) (String c EmptyString) =
  contains s (String c EmptyString) || contains t (String c EmptyString).
Proof.
  induction s as [|a s IH].
  - rewrite app_nil_l. reflexivity.
  - rewrite app_cons. cbn [contains]. rewrite !startswith_char, IH.
    apply orb_assoc.
Qed.

(** A string without a character has no substring with that character. *)
Lemma contains_needs_char c s sub :
  contains s (String c EmptyString) = false ->
  contains sub (String c EmptyString) = true ->
  contains s sub = false.
Proof.
  intros Hs Hsub. induction s as [|a s IH].
  - destruct sub; [discriminate|reflexivity].
  - cbn [contains]. destruct (startswith (String a s) sub) eqn:E.
    + apply startswith_true in E as [t E]. rewrite E, contains_char_app, Hsub in Hs.
      discriminate.
    + apply contains_cons_false in Hs as [_ Hs]. rewrite (IH Hs). reflexivity.
Qed.

Lemma replace_go_keeps_out c old new s skip :
  contains s (String c EmptyString) = false ->
  contains new (String c EmptyString) = false ->
  contains (replace_go old new skip s) (String c EmptyString) = false.
Proof.
  intros Hs Hnew. revert skip. induction s as [|a s IH]; intros skip; [reflexivity|].
  apply contains_cons_false in Hs as [Ha Hs]. rewrite startswith_char in Ha.
  cbn [replace_go]. destruct skip as [|k]; [|apply IH, Hs].
  destruct (startswith (String a s) old).
  - rewrite contains_char_app, Hnew, (IH Hs). reflexivity.
  - cbn [contains]. rewrite startswith_char, Ha, (IH Hs). reflexivity.
Qed.

Lemma intersperse_keeps_out c new s :
  contains s (String c EmptyString) = false ->
  contains new (String c EmptyString) = false ->
  contains (intersperse new s) (String c EmptyString) = false.
Proof.
  intros Hs Hnew. induction s as [|a s IH]; [exact Hnew|].
  apply contains_cons_false in Hs as [Ha Hs]. rewrite startswith_char in Ha.
  cbn [intersperse]. rewrite contains_char_app, Hnew. cbn [contains orb].
  rewrite startswith_char, Ha, (IH Hs). reflexivity.
Qed.

(** [replace] brings in no character that neither the string nor the
    replacement has. *)
Lemma replace_keeps_out c s old new :
  contains s (String c EmptyString) = false ->
  contains new (String c EmptyString) = false ->
  contains (replace s old new) (String c EmptyString) = false.
Proof.
  intros Hs Hnew. unfold replace. destruct old.
  - apply intersperse_keeps_out; assumption.
  - apply replace_go_keeps_out; assumption.
Qed.


(** The paths a replay of writes leaves in the map. *)
Lemma dom_fold_put l (m : gmap string string) :
  dom (fold_left put l m) = list_to_set (map fst l) ∪ dom m.
Proof.
  revert m. induction l as [|[p b] l IH]; intros m.
  - cbn. apply leibniz_equiv. intros z. rewrite elem_of_union, elem_of_empty. tauto.
  - cbn [fold_left map fst]. rewrite IH. unfold put. cbn [fst snd].
    rewrite dom_insert_L, list_to_set_cons.
    apply leibniz_equiv. intros z. rewrite !elem_of_union. tauto.
Qed.

Lemma stdout_fold pf cfg us w :
  Prefect.stdout (fold_left (process_unit pf cfg) us w) =
  Prefect.stdout w ++
  map (fun u => "Creating deployment for " +:+ deployment_of (snd u)) us.
Proof.
  revert w. induction us as [|u us IH]; intros w.
  - cbn. symmetry. apply List.app_nil_r.
  - cbn [fold_left map]. rewrite IH. cbn. rewrite <- List.app_assoc. reflexivity.
Qed.

Lemma world_eq (w1 w2 : world) :
  Prefect.stdout w1 = Prefect.stdout w2 ->
  made_dirs w1 = made_dirs w2 ->
  Prefect.files w1 = Prefect.files w2 ->
  w1 = w2.
Proof. destruct w1, w2. cbn. intros -> -> ->. reflexivity. Qed.

End MoreFacts.

(** ** Further properties of the generator *)

Module PrefectMore.
Import PyStr PyNum Os Prefect Discovery Scenarios.
Import PyStrFacts OsFacts GeneratorFacts MoreFacts.

(** X1. After a run the files are those that were there before and, for
    every unit, the file named after its deployment name in the output
    folder: nothing else is added and nothing is removed. *)
Theorem generated_paths (pf : platform) (cfg : config) (fs : node) (w : world) :
  dom (Prefect.files (generate pf cfg fs w)) =
  list_to_set
    (map (fun u => output_folder cfg +:+ "/" +:+ deployment_of (snd u) +:+ "-deploy.yaml")
         (units pf cfg fs))
  ∪ dom (Prefect.files w).
Proof.
  rewrite generate_units, files_fold, dom_fold_put, map_map. reflexivity.
Qed.

(** X2. A file whose path is not the output path of any unit of the run
    keeps its content, or stays absent. *)
Theorem other_files_untouched (pf : platform) (cfg : config) (fs : node)
    (w : world) (path : string) :
  (forall u, In u (units pf cfg fs) ->
     output_folder cfg +:+ "/" +:+ deployment_of (snd u) +:+ "-deploy.yaml" <> path) ->
  Prefect.files (generate pf cfg fs w) !! path = Prefect.files w !! path.
Proof.
  intros H. rewrite generate_units, files_fold, lookup_fold_put.
  rewrite last_write_None; [reflexivity|].
  intros kv Hkv. apply in_map_iff in Hkv as [u [<- Hu]]. apply (H u Hu).
Qed.

Lemma other_files_untouched_witness :
  Prefect.files (generate Nt notebook_config collision_tree used_world) !!
    "d:/exports/prefect_jobs/manual-deploy.yaml" =
  Prefect.files used_world !! "d:/exports/prefect_jobs/manual-deploy.yaml".
Proof.
  apply (other_files_untouched Nt notebook_config collision_tree used_world
           "d:/exports/prefect_jobs/manual-deploy.yaml").
  intros u Hu.
  assert (E : units Nt notebook_config collision_tree =
              [("d:/Git/thinkstack_data_etl/src\proj1", "flow.py");
               ("d:/Git/thinkstack_data_etl/src\proj2", "flow.py")]) by reflexivity.
  rewrite E in Hu. destruct Hu as [<-|[<-|[]]]; discriminate.
Defined.

(** X3. A run never writes outside the output folder: a path that does
    not start with the output folder and a slash is left as it was. *)
Theorem nothing_outside_output_folder (pf : platform) (cfg : config) (fs : node)
    (w : world) (path : string) :
  startswith path (output_folder cfg +:+ "/") = false ->
  Prefect.files (generate pf cfg fs w) !! path = Prefect.files w !! path.
Proof.
  intros H. rewrite generate_units, files_fold, lookup_fold_put.
  rewrite last_write_None; [reflexivity|].
  intros kv Hkv. apply in_map_iff in Hkv as [u [<- _]].
  cbn [unit_write fst]. unfold output_path. intros E. rewrite <- E in H.
  rewrite <- app_assoc, startswith_app in H. discriminate.
Qed.

Lemma nothing_outside_output_folder_witness :
  Prefect.files (generate Nt notebook_config collision_tree used_world) !!
    "d:/exports/readme.txt" = Some "keep me".
Proof.
  rewrite (nothing_outside_output_folder Nt notebook_config collision_tree
             used_world "d:/exports/readme.txt"); reflexivity.
Defined.

(** X4. A run prints one line per unit, in processing order, after what
    was printed before, and nothing else. *)
Theorem one_line_per_unit (pf : platform) (cfg : config) (fs : node) (w : world) :
  Prefect.stdout (generate pf cfg fs w) =
  Prefect.stdout w ++
  map (fun u => "Creating deployment for " +:+ deployment_of (snd u))
      (units pf cfg fs).
Proof. rewrite generate_units. apply stdout_fold. Qed.

(** X5. With at least one unit the output folder has been asked for, and
    so is there, after the run; with no unit, as when every [src] holds no
    [.py] entry, the run asks for no directory at all. *)
Theorem output_folder_made_with_first_unit (pf : platform) (cfg : config)
    (fs : node) (w : world) :
  (units pf cfg fs <> [] ->
   output_folder cfg ∈ made_dirs (generate pf cfg fs w)) /\
  (units pf cfg fs = [] ->
   made_dirs (generate pf cfg fs w) = made_dirs w).
Proof.
  rewrite generate_units, made_dirs_fold. split.
  - destruct (units pf cfg fs); [intros H; contradiction|].
    intros _. apply elem_of_union. left. apply elem_of_singleton. reflexivity.
  - intros ->. reflexivity.
Qed.

Lemma output_folder_made_with_first_unit_witness :
  "d:/exports/prefect_jobs" ∈
    made_dirs (generate Nt notebook_config collision_tree empty_world) /\
  made_dirs (generate Nt notebook_config flat_tree used_world) = made_dirs used_world.
Proof.
  split.
  - apply (proj1 (output_folder_made_with_first_unit Nt notebook_config
                    collision_tree empty_world)).
    discriminate.
  - apply (proj2 (output_folder_made_with_first_unit Nt notebook_config
                    flat_tree used_world)).
    reflexivity.
Defined.



(** X7. A file name that starts with a dot has the empty deployment name:
    all such files are written to [-deploy.yaml] in the output folder, and
    their entry point names [.py]. *)
Theorem leading_dot_empty_deployment (pf : platform) (cfg : config)
    (root file : string) :
  startswith file "." = true ->
  deployment_of file = EmptyString /\
  output_path cfg (deployment_of file) = output_folder cfg +:+ "/-deploy.yaml" /\
  entrypoint (call_args pf cfg root "src" file) =
    to_remote cfg (root +:+ "/src/.py:").
Proof.
  intros H. destruct file as [|a file]; [discriminate|].
  rewrite startswith_char in H.
  assert (E : deployment_of (String a file) = EmptyString).
  { unfold deployment_of. rewrite item0_split_cons, Ascii.eqb_sym, H. reflexivity. }
  split; [exact E|]. split.
  - rewrite E. reflexivity.
  - cbn [call_args entrypoint]. rewrite E. reflexivity.
Qed.

Lemma leading_dot_empty_deployment_witness :
  deployment_of ".hidden.py" = EmptyString /\
  output_path notebook_config (deployment_of ".hidden.py") =
    "d:/exports/prefect_jobs" +:+ "/-deploy.yaml" /\
  entrypoint (call_args Nt notebook_config
                "d:/Git/thinkstack_data_etl/src\a" "src" ".hidden.py") =
    to_remote notebook_config ("d:/Git/thinkstack_data_etl/src\a" +:+ "/src/.py:").
Proof.
  apply (leading_dot_empty_deployment Nt notebook_config
           "d:/Git/thinkstack_data_etl/src\a" ".hidden.py"); reflexivity.
Defined.

(** X8. When [local_root] is written with a backslash, the substitution of
    the remote root never takes place: the backslashes of the path are
    turned into slashes first, so [local_root] is no longer found in it. *)
Theorem backslash_local_root_disables_substitution (cfg : config) (x : string) :
  contains (local_root cfg) "\" = true ->
  to_remote cfg x = replace x "\" "/".
Proof.
  intros H. unfold to_remote. apply replace_absent.
  apply (contains_needs_char "\"%char); [|exact H].
  apply (replace_char_clean "\"%char "/"%char). reflexivity.
Qed.

Lemma backslash_local_root_disables_substitution_witness :
  to_remote backslash_root_config
    "d:\Git\thinkstack_data_etl\src\proj1/src/flow.py:flow" =
  "d:/Git/thinkstack_data_etl/src/proj1/src/flow.py:flow".
Proof.
  rewrite (backslash_local_root_disables_substitution backslash_root_config
             "d:\Git\thinkstack_data_etl\src\proj1/src/flow.py:flow");
    reflexivity.
Defined.

(** X9. When [src_root] has no backslash, no entry point and no project
    directory the loop computes has one. *)
Theorem remote_path_has_no_backslash (cfg : config) (x : string) :
  contains (src_root cfg) "\" = false ->
  contains (to_remote cfg x) "\" = false.
Proof.
  intros H. unfold to_remote.
  apply (replace_keeps_out "\"%char); [|exact H].
  apply (replace_char_clean "\"%char "/"%char). reflexivity.
Qed.

Lemma remote_path_has_no_backslash_witness :
  contains (to_remote notebook_config
              "d:/Git/thinkstack_data_etl/src\proj1\sub/src/flow.py:flow") "\" = false.
Proof.
  apply (remote_path_has_no_backslash notebook_config). reflexivity.
Defined.

(** X10. Nothing but an entry of a directory named [src] whose name ends
    in [.py] is ever processed: every unit of a run is such an entry, found
    under the path [os.walk] gives the directory that holds that [src]. *)
Theorem units_are_py_entries_of_src (pf : platform) (cfg : config) (fs : node)
    (root file : string) :
  In (root, file) (units pf cfg fs) ->
  endswith file ".py" = true /\
  exists p es es',
    at_path fs p es /\ subdir es "src" = Some es' /\ In file (map fst es') /\
    root = path_of pf (local_root cfg) p.
Proof.
  intros H. apply units_spec in H as (p & es & es' & Hp & Hs & Hin & Hpy & ->).
  split; [exact Hpy|]. exists p, es, es'. auto.
Qed.

Lemma units_are_py_entries_of_src_witness :
  endswith "flow.py" ".py" = true /\
  exists p es es',
    at_path collision_tree p es /\ subdir es "src" = Some es' /\
    In "flow.py" (map fst es') /\
    "d:/Git/thinkstack_data_etl/src\proj2" =
      path_of Nt (local_root notebook_config) p.
Proof.
  apply (units_are_py_entries_of_src Nt notebook_config collision_tree
           "d:/Git/thinkstack_data_etl/src\proj2" "flow.py").
  right. left. reflexivity.
Defined.

(** X11. [create_deployment_yaml] overwrites: after two calls for the same
    deployment name the world is as if only the second had been made. *)
Theorem create_overwrites (cfg : config) (a b : args) (w : world) :
  deployment_name a = deployment_name b ->
  create_deployment_yaml cfg a (create_deployment_yaml cfg b w) =
  create_deployment_yaml cfg a w.
Proof.
  intros E. apply world_eq; cbn.
  - reflexivity.
  - apply leibniz_equiv. intros z. rewrite !elem_of_union. tauto.
  - rewrite E. apply insert_insert_eq.
Qed.

Lemma create_overwrites_witness :
  create_deployment_yaml notebook_config flow_args_v2
    (create_deployment_yaml notebook_config flow_args_v1 used_world) =
  create_deployment_yaml notebook_config flow_args_v2 used_world.
Proof.
  apply (create_overwrites notebook_config flow_args_v2 flow_args_v1 used_world).
  reflexivity.
Defined.

(** X12. Calls of [create_deployment_yaml] for different deployment names
    do not disturb each other: in either order they leave the same world. *)
Theorem create_commutes (cfg : config) (a b : args) (w : world) :
  deployment_name a <> deployment_name b ->
  create_deployment_yaml cfg a (create_deployment_yaml cfg b w) =
  create_deployment_yaml cfg b (create_deployment_yaml cfg a w).
Proof.
  intros Hne. apply world_eq; cbn.
  - reflexivity.
  - apply leibniz_equiv. intros z. rewrite !elem_of_union. tauto.
  - apply insert_insert_ne. intros E. apply output_path_inj in E. exact (Hne E).
Qed.

Lemma create_commutes_witness :
  create_deployment_yaml notebook_config flow_args_v1
    (create_deployment_yaml notebook_config other_args used_world) =
  create_deployment_yaml notebook_config other_args
    (create_deployment_yaml notebook_config flow_args_v1 used_world).
Proof.
  apply (create_commutes notebook_config flow_args_v1 other_args used_world).
  discriminate.
Defined.

End PrefectMore.

(** ** Facts about [rfind], slices and the separator index *)

Module SliceFacts.
Import PyStr PyNum Os Potrace PyStrFacts OsFacts.

Lemma take_app s t : take (String.length s) (s +:+ t) = s.
Proof.
  induction s as [|c s IH]; [destruct t; reflexivity|].
  rewrite app_cons. cbn [String.length take]. rewrite IH. reflexivity.
Qed.

Lemma rfind_cons c a s :
  rfind c (String a s) =
  match rfind c s with
  | Some i => Some (S i)
  | None => if Ascii.eqb a c then Some 0 else None
  end.
Proof. reflexivity. Qed.

(** The last occurrence in [s +:+ t] is the one in [t] if there is one,
    else the one in [s]. *)
Lemma rfind_app c s t :
  rfind c (s +:+ t) =
  match rfind c t with
  | Some i => Some (String.length s + i)
  | None => rfind c s
  end.
Proof.
  induction s as [|a s IH].
  - rewrite app_nil_l. destruct (rfind c t); reflexivity.
  - rewrite app_cons, !rfind_cons, IH.
    destruct (rfind c t); [reflexivity|].
    destruct (rfind c s); reflexivity.
Qed.

Lemma rfind_lt c s i : rfind c s = Some i -> i < String.length s.
Proof.
  revert i. induction s as [|a s IH]; intros i; [discriminate|].
  rewrite rfind_cons. cbn [String.length]. destruct (rfind c s) as [j|].
  - intros [= <-]. specialize (IH j eq_refl). lia.
  - destruct (Ascii.eqb a c); [|discriminate]. intros [= <-]. lia.
Qed.

(** A found index splits the string at the last occurrence. *)
Lemma rfind_Some_split c p d :
  rfind c p = Some d ->
  exists s t, p = s +:+ String c t /\ String.length s = d /\ rfind c t = None.
Proof.
  revert d. induction p as [|a p IH]; intros d; [discriminate|].
  rewrite rfind_cons. destruct (rfind c p) as [i|] eqn:E.
  - intros [= <-]. destruct (IH i eq_refl) as (s & t & -> & Hl & Ht).
    exists (String a s), t. cbn [String.length]. rewrite Hl. auto.
  - destruct (Ascii.eqb a c) eqn:Ea; [|discriminate]. intros [= <-].
    apply Ascii.eqb_eq in Ea as ->. exists EmptyString, p. auto.
Qed.

Lemma rfind_absent c s : contains s (String c EmptyString) = false -> rfind c s = None.
Proof.
  induction s as [|a s IH]; intros H; [reflexivity|].
  apply contains_cons_false in H as [Ha Hs]. rewrite startswith_char in Ha.
  rewrite rfind_cons, (IH Hs), Ascii.eqb_sym, Ha. reflexivity.
Qed.

(** A string without separators holds neither [os.sep] nor [os.altsep],
    and the other way round. *)
Lemma has_sep_false_rfind pf s :
  has_sep pf s = false ->
  rfind (os_sep pf) s = None /\
  match os_altsep pf with
  | Some a => rfind a s = None
  | None => True
  end.
Proof.
  induction s as [|c s IH]; intros H.
  - split; [reflexivity|]. destruct (os_altsep pf); reflexivity.
  - cbn [has_sep] in H. apply orb_false_iff in H as [Hc Hs].
    destruct (IH Hs) as [H1 H2]. unfold is_sep in Hc.
    apply orb_false_iff in Hc as [Hc1 Hc2].
    rewrite rfind_cons, H1, Hc1. split; [reflexivity|].
    destruct (os_altsep pf) as [a|]; [|exact I].
    rewrite rfind_cons, H2, Hc2. reflexivity.
Qed.

Lemma rfind_None_has_sep pf s :
  rfind (os_sep pf) s = None ->
  match os_altsep pf with
  | Some a => rfind a s = None
  | None => True
  end ->
  has_sep pf s = false.
Proof.
  induction s as [|c s IH]; intros H1 H2; [reflexivity|].
  rewrite rfind_cons in H1. destruct (rfind (os_sep pf) s) eqn:E1; [discriminate|].
  destruct (Ascii.eqb c (os_sep pf)) eqn:Ec1; [discriminate|].
  cbn [has_sep]. unfold is_sep. rewrite Ec1.
  destruct (os_altsep pf) as [a|].
  - rewrite rfind_cons in H2. destruct (rfind a s) eqn:E2; [discriminate|].
    destruct (Ascii.eqb c a) eqn:Ec2; [discriminate|].
    cbn [orb]. apply IH; reflexivity.
  - cbn [orb]. apply IH; [reflexivity|exact I].
Qed.

(** The index of the last separator of a directory prefix that is empty
    or ends with a separator is its length less one. *)
Lemma sep_index_of_dir pf dir :
  match last_char dir with
  | Some c => is_sep pf c = true
  | None => True
  end ->
  Z.max (index_or_minus1 (rfind (os_sep pf) dir))
        (match os_altsep pf with
         | Some a => index_or_minus1 (rfind a dir)
         | None => (-1)%Z
         end) = (Z.of_nat (String.length dir) - 1)%Z.
Proof.
  destruct (last_char dir) as [c|] eqn:E.
  - apply last_char_Some in E as [d ->]. intros Hc.
    rewrite length_app. cbn [String.length].
    assert (Hb : forall a, (index_or_minus1 (rfind a (d +:+ String c EmptyString))
                            <= Z.of_nat (String.length d))%Z).
    { intros a. destruct (rfind a _) as [i|] eqn:Ei; cbn [index_or_minus1]; [|lia].
      apply rfind_lt in Ei. rewrite length_app in Ei. cbn [String.length] in Ei. lia. }
    assert (Hhit : forall a, Ascii.eqb c a = true ->
              index_or_minus1 (rfind a (d +:+ String c EmptyString)) =
              Z.of_nat (String.length d)).
    { intros a Ha. rewrite rfind_app, rfind_cons. cbn [rfind]. rewrite Ha.
      cbn [index_or_minus1]. lia. }
    unfold is_sep in Hc. apply orb_true_iff in Hc as [Hc|Hc].
    + rewrite (Hhit _ Hc). destruct (os_altsep pf) as [a|]; [specialize (Hb a)|]; lia.
    + destruct (os_altsep pf) as [a|]; [|discriminate].
      rewrite (Hhit _ Hc). specialize (Hb (os_sep pf)). lia.
  - intros _. destruct dir as [|a dir]; [destruct pf; reflexivity|].
    exfalso. revert a E. induction dir as [|b dir IH]; intros a E; [discriminate|].
    apply (IH b). exact E.
Qed.

(** The stem of [dir + name + "." + ext]. *)
Lemma splitext_root_shape (pf : platform) (dir name ext : string) :
  match last_char dir with
  | Some c => is_sep pf c = true
  | None => True
  end ->
  has_sep pf name = false ->
  all_dots name = false ->
  has_sep pf ext = false ->
  contains ext "." = false ->
  splitext_root pf (dir +:+ name +:+ "." +:+ ext) = dir +:+ name.
Proof.
  intros Hdir Hname Hdots Hext Hnodot.
  assert (Htail : has_sep pf (name +:+ "." +:+ ext) = false).
  { rewrite !has_sep_app, Hname, Hext. destruct pf; reflexivity. }
  destruct (has_sep_false_rfind pf _ Htail) as [Hs1 Hs2].
  assert (Hdot : rfind "."%char (dir +:+ name +:+ "." +:+ ext) =
                 Some (String.length (dir +:+ name))).
  { rewrite <- app_assoc.
    change ("." +:+ ext) with (String "."%char ext).
    rewrite rfind_app, rfind_cons, (rfind_absent _ _ Hnodot). cbn. f_equal. lia. }
  unfold splitext_root. cbv zeta.
  rewrite Hdot, (rfind_app (os_sep pf) dir), Hs1.
  assert (Hsep :
    Z.max (index_or_minus1 (rfind (os_sep pf) dir))
          (match os_altsep pf with
           | Some a => index_or_minus1 (rfind a (dir +:+ name +:+ "." +:+ ext))
           | None => (-1)%Z
           end) = (Z.of_nat (String.length dir) - 1)%Z).
  { rewrite <- (sep_index_of_dir pf dir Hdir).
    destruct (os_altsep pf) as [a|]; [|reflexivity].
    rewrite (rfind_app a dir), Hs2. reflexivity. }
  rewrite Hsep. cbn [index_or_minus1]. rewrite length_app.
  destruct (Z.ltb_spec (Z.of_nat (String.length dir) - 1)
              (Z.of_nat (String.length dir + String.length name))) as [_|Hge];
    [|lia].
  replace (Z.to_nat (Z.of_nat (String.length dir) - 1 + 1))
    with (String.length dir) by lia.
  rewrite Nat2Z.id, drop_app.
  replace (String.length dir + String.length name - String.length dir)
    with (String.length name) by lia.
  rewrite take_app, Hdots.
  rewrite <- length_app, <- app_assoc. apply take_app.
Qed.

Lemma join_parts_app l1 l2 : join_parts (l1 ++ l2) = join_parts l1 +:+ join_parts l2.
Proof.
  induction l1 as [|x l1 IH]; [reflexivity|].
  cbn [app join_parts fold_right]. unfold join_parts in IH. rewrite IH.
  symmetry. apply app_assoc.
Qed.

(** The joined parts of a list of curves, curve after curve. *)
Lemma join_parts_curves (plist : list curve) :
  join_parts (flat_map curve_parts plist) =
  fold_right
    (fun c rest =>
       "M" +:+ coords (start_point c) +:+
       join_parts (map segment_part (segments c)) +:+ "z" +:+ rest)
    EmptyString plist.
Proof.
  induction plist as [|c plist IH]; [reflexivity|].
  cbn [flat_map fold_right]. rewrite join_parts_app, IH.
  unfold curve_parts. cbn [join_parts fold_right].
  change (fold_right String.append EmptyString
            (map segment_part (segments c) ++ ["z"]))
    with (join_parts (map segment_part (segments c) ++ ["z"])).
  rewrite join_parts_app. cbn [join_parts fold_right].
  rewrite !app_assoc. reflexivity.
Qed.

End SliceFacts.

(** ** Further properties of the tracer *)

Module PotraceMore.
Import PyStr PyNum Os Potrace Scenarios.
Import PyStrFacts OsFacts SliceFacts.

(** X13. The [try] block protects the load only, and only against an
    [Exception]: when the load raises something else, or when the load
    goes through and the tracing raises, whatever it raises, [file_to_svg]
    raises it. Then only the loading line has been printed and no file has
    been written. *)
Theorem uncaught_failures_propagate (image : Type) (width height : image -> Z)
    (Image_open : string -> result image)
    (ImageOps_equalize : image -> result image)
    (Bitmap_trace : image -> result (list curve))
    (pf : platform) (filename : string) (e : exn) (w : world) :
  (load_image image Image_open ImageOps_equalize filename = Raise e /\
   is_Exception e = false) \/
  (exists img,
     load_image image Image_open ImageOps_equalize filename = Ok img /\
     Bitmap_trace img = Raise e) ->
  fst (file_to_svg image width height Image_open ImageOps_equalize
         Bitmap_trace pf filename w) = Raised e /\
  stdout (snd (file_to_svg image width height Image_open ImageOps_equalize
                 Bitmap_trace pf filename w)) =
    stdout w ++ ["Loading image " +:+ filename +:+ "..."] /\
  files (snd (file_to_svg image width height Image_open ImageOps_equalize
                Bitmap_trace pf filename w)) = files w.
Proof.
  unfold file_to_svg. intros [[Hl Hx]|(img & Hl & Ht)]; rewrite Hl.
  - rewrite Hx. repeat split.
  - rewrite Ht. repeat split.
Qed.

Lemma uncaught_failures_propagate_witness :
  fst (file_to_svg unit (fun _ => 3%Z) (fun _ => 4%Z)
         (fun _ => Ok tt) Ok (fun _ => Raise missing_file)
         Posix "stage_main.png" no_world) = Raised missing_file /\
  stdout (snd (file_to_svg unit (fun _ => 3%Z) (fun _ => 4%Z)
                 (fun _ => Ok tt) Ok (fun _ => Raise missing_file)
                 Posix "stage_main.png" no_world)) =
    [] ++ ["Loading image " +:+ "stage_main.png" +:+ "..."] /\
  files (snd (file_to_svg unit (fun _ => 3%Z) (fun _ => 4%Z)
                (fun _ => Ok tt) Ok (fun _ => Raise missing_file)
                Posix "stage_main.png" no_world)) = ∅.
Proof.
  apply (uncaught_failures_propagate unit (fun _ => 3%Z) (fun _ => 4%Z)
           (fun _ => Ok tt) Ok (fun _ => Raise missing_file)
           Posix "stage_main.png" missing_file no_world).
  right. exists tt. split; reflexivity.
Defined.

(** X14. Whatever happens, [file_to_svg] leaves every file alone except
    the one named after the input with its extension replaced by [.svg]. *)
Theorem only_the_svg_file_changes (image : Type) (width height : image -> Z)
    (Image_open : string -> result image)
    (ImageOps_equalize : image -> result image)
    (Bitmap_trace : image -> result (list curve))
    (pf : platform) (filename path : string) (w : world) :
  path <> splitext_root pf filename +:+ ".svg" ->
  files (snd (file_to_svg image width height Image_open ImageOps_equalize
                Bitmap_trace pf filename w)) !! path = files w !! path.
Proof.
  intros Hne. unfold file_to_svg.
  destruct (load_image image Image_open ImageOps_equalize filename) as [img|e0].
  - destruct (Bitmap_trace img) as [plist|e1]; cbn [snd]; [|reflexivity].
    cbn [write_file print files]. apply lookup_insert_ne. congruence.
  - destruct (is_Exception e0); reflexivity.
Qed.

Lemma only_the_svg_file_changes_witness :
  files (snd (file_to_svg unit (fun _ => 3%Z) (fun _ => 4%Z)
                (fun _ => Ok tt) Ok (fun _ => Ok [])
                Posix "/data/stage_main.png"
                {| stdout := []; files := {[ "/data/stage_main.png" := "PNG" ]} |}))
    !! "/data/stage_main.png" = Some "PNG".
Proof.
  rewrite (only_the_svg_file_changes unit (fun _ => 3%Z) (fun _ => 4%Z)
             (fun _ => Ok tt) Ok (fun _ => Ok [])
             Posix "/data/stage_main.png" "/data/stage_main.png").
  - reflexivity.
  - discriminate.
Defined.

(** X15. For an input [dir + name + "." + ext], where [dir] is empty or
    ends with a separator, [name] has no separator and is not made of dots
    only, and [ext] has neither separator nor dot: when loading and
    tracing go through, the SVG text is in the file [dir + name + ".svg"],
    next to the input and with its base name. *)
Theorem svg_written_next_to_input (image : Type) (width height : image -> Z)
    (Image_open : string -> result image)
    (ImageOps_equalize : image -> result image)
    (Bitmap_trace : image -> result (list curve))
    (pf : platform) (dir name ext : string) (img : image) (plist : list curve)
    (w : world) :
  match last_char dir with
  | Some c => is_sep pf c = true
  | None => True
  end ->
  has_sep pf name = false ->
  all_dots name = false ->
  has_sep pf ext = false ->
  contains ext "." = false ->
  load_image image Image_open ImageOps_equalize (dir +:+ name +:+ "." +:+ ext) = Ok img ->
  Bitmap_trace img = Ok plist ->
  fst (file_to_svg image width height Image_open ImageOps_equalize
         Bitmap_trace pf (dir +:+ name +:+ "." +:+ ext) w) = Returned /\
  files (snd (file_to_svg image width height Image_open ImageOps_equalize
                Bitmap_trace pf (dir +:+ name +:+ "." +:+ ext) w))
    !! (dir +:+ name +:+ ".svg") = Some (svg_text image width height img plist).
Proof.
  intros Hdir Hname Hdots Hext Hnodot Hload Htrace.
  unfold file_to_svg. rewrite Hload, Htrace. cbn [fst snd].
  split; [reflexivity|].
  rewrite (splitext_root_shape pf dir name ext Hdir Hname Hdots Hext Hnodot).
  cbn [write_file files]. rewrite app_assoc. apply lookup_insert_eq.
Qed.

Lemma svg_written_next_to_input_witness :
  fst (file_to_svg unit (fun _ => 3%Z) (fun _ => 4%Z)
         (fun _ => Ok tt) Ok (fun _ => Ok [])
         Posix ("/mnt/mls/data/gabemcwilliams_info/" +:+ "stage_main" +:+ "." +:+ "png")
         no_world) = Returned /\
  files (snd (file_to_svg unit (fun _ => 3%Z) (fun _ => 4%Z)
                (fun _ => Ok tt) Ok (fun _ => Ok [])
                Posix ("/mnt/mls/data/gabemcwilliams_info/" +:+ "stage_main" +:+ "." +:+ "png")
                no_world))
    !! ("/mnt/mls/data/gabemcwilliams_info/" +:+ "stage_main" +:+ ".svg") =
  Some (svg_text unit (fun _ => 3%Z) (fun _ => 4%Z) tt []).
Proof.
  apply (svg_written_next_to_input unit (fun _ => 3%Z) (fun _ => 4%Z)
           (fun _ => Ok tt) Ok (fun _ => Ok [])
           Posix "/mnt/mls/data/gabemcwilliams_info/" "stage_main" "png" tt []
           no_world); reflexivity.
Defined.

(** X16. For every input the stem is the input less a tail that holds no
    separator and is empty or starts with a dot: the SVG always lands in
    the directory of the input. *)
Theorem splitext_root_is_prefix (pf : platform) (p : string) :
  exists ext,
    p = splitext_root pf p +:+ ext /\
    has_sep pf ext = false /\
    (ext = EmptyString \/ startswith ext "." = true).
Proof.
  assert (Hkeep : exists ext, p = p +:+ ext /\ has_sep pf ext = false /\
                    (ext = EmptyString \/ startswith ext "." = true)).
  { exists EmptyString. rewrite app_nil_r. auto. }
  unfold splitext_root. cbv zeta.
  destruct (Z.ltb_spec
    (Z.max (index_or_minus1 (rfind (os_sep pf) p))
           (match os_altsep pf with
            | Some a => index_or_minus1 (rfind a p)
            | None => (-1)%Z
            end))
    (index_or_minus1 (rfind "."%char p))) as [Hlt|_]; [|exact Hkeep].
  destruct (all_dots _); [exact Hkeep|].
  destruct (rfind "."%char p) as [d|] eqn:Ed; cbn [index_or_minus1] in *.
  2:{ destruct (rfind (os_sep pf) p); cbn [index_or_minus1] in Hlt; lia. }
  apply rfind_Some_split in Ed as (s & t & -> & <- & _).
  rewrite Nat2Z.id, take_app. exists (String "."%char t).
  split; [reflexivity|]. split; [|right; destruct t; reflexivity].
  apply rfind_None_has_sep.
  - rewrite (rfind_app (os_sep pf)) in Hlt.
    destruct (rfind (os_sep pf) (String "."%char t)) as [k|] eqn:Ek; [|reflexivity].
    exfalso. rewrite ?Ek in Hlt. cbn [index_or_minus1] in Hlt. lia.
  - destruct (os_altsep pf) as [a|]; [|exact I].
    rewrite (rfind_app a) in Hlt.
    destruct (rfind a (String "."%char t)) as [k|] eqn:Ek; [|reflexivity].
    exfalso. rewrite ?Ek in Hlt. cbn [index_or_minus1] in Hlt. lia.
Qed.

(** X17. When loading and tracing go through, the file written holds the
    [svg] element with the width and height of the image, then one [path]
    element whose data is, curve after curve, [M] with the start point,
    the parts of the segments in their order and a closing [z], and then
    the closing tag. *)
Theorem svg_file_curve_by_curve (image : Type) (width height : image -> Z)
    (Image_open : string -> result image)
    (ImageOps_equalize : image -> result image)
    (Bitmap_trace : image -> result (list curve))
    (pf : platform) (filename : string) (img : image) (plist : list curve)
    (w : world) :
  load_image image Image_open ImageOps_equalize filename = Ok img ->
  Bitmap_trace img = Ok plist ->
  files (snd (file_to_svg image width height Image_open ImageOps_equalize
                Bitmap_trace pf filename w))
    !! (splitext_root pf filename +:+ ".svg") =
  Some
    ("<svg version=" +:+ quoted "1.1" +:+
     " xmlns=" +:+ quoted "http://www.w3.org/2000/svg" +:+
     " xmlns:xlink=" +:+ quoted "http://www.w3.org/1999/xlink" +:+
     " width=" +:+ quoted (int_str (width img)) +:+
     " height=" +:+ quoted (int_str (height img)) +:+
     " viewBox=" +:+
     quoted ("0 0 " +:+ int_str (width img) +:+ " " +:+ int_str (height img)) +:+
     ">" +:+
     "<path stroke=" +:+ quoted "none" +:+ " fill=" +:+ quoted "black" +:+
     " fill-rule=" +:+ quoted "evenodd" +:+
     " d=" +:+
     quoted
       (fold_right
          (fun c rest =>
             "M" +:+ coords (start_point c) +:+
             join_parts (map segment_part (segments c)) +:+ "z" +:+ rest)
          EmptyString plist) +:+
     "/>" +:+ "</svg>").
Proof.
  intros Hload Htrace. unfold file_to_svg. rewrite Hload, Htrace.
  cbn [snd write_file files]. rewrite lookup_insert_eq.
  unfold svg_text. rewrite join_parts_curves. reflexivity.
Qed.

Lemma svg_file_curve_by_curve_witness :
  files (snd (file_to_svg unit (fun _ => 3%Z) (fun _ => 4%Z)
                (fun _ => Ok tt) Ok (fun _ => Ok [triangle])
                Posix "/data/stage_main.png" no_world))
    !! ("/data/stage_main" +:+ ".svg") =
  Some
    ("<svg version=" +:+ quoted "1.1" +:+
     " xmlns=" +:+ quoted "http://www.w3.org/2000/svg" +:+
     " xmlns:xlink=" +:+ quoted "http://www.w3.org/1999/xlink" +:+
     " width=" +:+ quoted "3" +:+
     " height=" +:+ quoted "4" +:+
     " viewBox=" +:+ quoted "0 0 3 4" +:+
     ">" +:+
     "<path stroke=" +:+ quoted "none" +:+ " fill=" +:+ quoted "black" +:+
     " fill-rule=" +:+ quoted "evenodd" +:+
     " d=" +:+ quoted "M0.0,0.0L2.0,0.0L2.0,1.5C1.5,1.5 0.5,1.0 0.0,0.0z" +:+
     "/>" +:+ "</svg>").
Proof.
  apply (svg_file_curve_by_curve unit (fun _ => 3%Z) (fun _ => 4%Z)
           (fun _ => Ok tt) Ok (fun _ => Ok [triangle])
           Posix "/data/stage_main.png" tt [triangle] no_world); reflexivity.
Defined.

End PotraceMore.
